(** * GarageQTPi: device state and actuation engine

    A shallow embedding of [lib/garage.py] (the classes [MotionSensor],
    [GarageDoor] and [TwoSwitchGarageDoor]) and of [execute_command] from
    [main.py], followed by the properties of the state resolvers, the relay
    pulses, the change notification and the command dispatcher.

    Python objects become records, the mutable attribute [self._state] is
    threaded explicitly (a method that assigns it returns the new object),
    and every call into [RPi.GPIO], [time] and [logging] is a step of a small
    state monad over a [World]: the electrical level of every channel plus
    the chronological trace of the calls that were made. *)

From Stdlib Require Import ZArith List String Bool Lia.
Import ListNotations.

Local Open Scope string_scope.
Local Open Scope list_scope.
Local Open Scope Z_scope.

(** ** Python values *)

(** [self._state] and the value of the [state] property: a [str] or [None]. *)
Definition pystate : Type := option string.

(** [value == 'literal'] for a value that is a [str] or [None]. *)
Definition py_eq (v : pystate) (lit : string) : bool :=
  match v with
  | Some s => String.eqb s lit
  | None => false
  end.

(** [bool(config.get(key))] for a key holding a [bool] or missing. *)
Definition py_bool (v : option bool) : bool :=
  match v with
  | Some b => b
  | None => false
  end.

(** ** The world: channel levels and the trace of library calls *)

Inductive direction : Type := IN | OUT.

Inductive pull : Type := PUD_UP.

Inductive edge : Type := BOTH.

(** The three bound methods that the constructors pass to
    [GPIO.add_event_detect].  Python mangles [self.__stateChanged] by the
    class whose body mentions it, so the parent constructor registers the
    parent's method even on a [TwoSwitchGarageDoor]. *)
Inductive callback : Type :=
| MotionSensor__stateChanged_cb
| GarageDoor__stateChanged_cb
| TwoSwitchGarageDoor__stateChanged_cb.

(** A subscriber of the change notifier: an opaque callable, known by a tag. *)
Definition handler : Type := nat.

Inductive event : Type :=
| SetWarnings (flag : bool)
| SetModeBCM
| Setup (channel : Z) (dir : direction) (initial : option bool)
        (pull_up_down : option pull)
| AddEventDetect (channel : Z) (e : edge) (cb : callback) (bouncetime : Z)
| Input (channel : Z) (value : Z)
| Output (channel : Z) (value : bool)
| Sleep (ms : Z)
| LogInfo (msg : string)
| HandlerCall (h : handler) (arg : pystate).

Record World : Type := mkWorld {
  levels : Z -> bool;
  trace : list event
}.

Definition set_level (channel : Z) (v : bool) (lv : Z -> bool) : Z -> bool :=
  fun c => if c =? channel then v else lv c.

(** ** A state monad over the world *)

Definition M (A : Type) : Type := World -> A * World.

Definition ret {A : Type} (a : A) : M A := fun w => (a, w).

Definition bind {A B : Type} (m : M A) (k : A -> M B) : M B :=
  fun w => let (a, w') := m w in k a w'.

Notation "x <- m ;; k" := (bind m (fun x => k))
  (at level 61, m at next level, right associativity).
Notation "m ;; k" := (bind m (fun _ => k))
  (at level 61, right associativity).

Definition emit (e : event) : M unit :=
  fun w => (tt, mkWorld (levels w) (trace w ++ [e])).

(** ** The library calls the source makes *)

Module GPIO.

Definition setwarnings (flag : bool) : M unit := emit (SetWarnings flag).

Definition setmode_BCM : M unit := emit SetModeBCM.

(** [GPIO.setup(channel, GPIO.OUT, initial=v)] drives the channel to [v];
    an input channel keeps the level its sensor gives it. *)
Definition setup (channel : Z) (dir : direction) (initial : option bool)
           (pull_up_down : option pull) : M unit :=
  fun w =>
    (tt, mkWorld
           (match dir, initial with
            | OUT, Some v => set_level channel v (levels w)
            | _, _ => levels w
            end)
           (trace w ++ [Setup channel dir initial pull_up_down])).

Definition add_event_detect (channel : Z) (e : edge) (cb : callback)
           (bouncetime : Z) : M unit :=
  emit (AddEventDetect channel e cb bouncetime).

(** [GPIO.input(channel)]: 0 or 1. *)
Definition input (channel : Z) : M Z :=
  fun w =>
    let v := Z.b2z (levels w channel) in
    (v, mkWorld (levels w) (trace w ++ [Input channel v])).

Definition output (channel : Z) (v : bool) : M unit :=
  fun w =>
    (tt, mkWorld (set_level channel v (levels w))
                 (trace w ++ [Output channel v])).

End GPIO.

(** [time.sleep], in milliseconds. *)
Definition time_sleep (ms : Z) : M unit := emit (Sleep ms).

Definition logging_info (msg : string) : M unit := emit (LogInfo msg).

(** ** lib/eventhook.py *)

Module EventHook.

(** Modelled from the spec: [lib/eventhook.py], the class [EventHook] behind
    [onStateChange], is not among the sources.  The spec describes it as a
    synchronous multi-subscriber broadcaster: subscribing appends the handler
    to the subscriber list (append-only, no removal). *)
Definition addHandler (hs : list handler) (h : handler) : list handler :=
  hs ++ [h].

(** Modelled from the spec: [fire] of the absent [EventHook] invokes every
    registered handler in registration order, on the calling thread, with
    the value it was given.  An invocation is recorded as a [HandlerCall]. *)
Fixpoint fire (hs : list handler) (v : pystate) : M unit :=
  match hs with
  | [] => ret tt
  | h :: hs' => emit (HandlerCall h v) ;; fire hs' v
  end.

End EventHook.

(** ** lib/garage.py *)

Module Garage.

(** [SHORT_WAIT = .2] seconds, written in milliseconds. *)
Definition SHORT_WAIT : Z := 200.

(** The validated configuration dictionary of one door or sensor; a key the
    schema leaves optional is an [option]. *)
Record Config : Type := mkConfig {
  cfg_id : string;
  cfg_relay_opening : Z;
  cfg_relay_closing : Z;
  cfg_relay_stop : option Z;
  cfg_state : Z;
  cfg_open : option Z;
  cfg_state_mode : option string;
  cfg_invert_relay : option bool;
  cfg_check_state_before_command : option bool
}.

(** [int(config.get('state_mode') == 'normally_closed')] *)
Definition mode_of_config (state_mode : option string) : Z :=
  Z.b2z (py_eq state_mode "normally_closed").

(** *** class MotionSensor *)

Record MotionSensor : Type := mkMotionSensor {
  ms_state_pin : Z;
  ms_id : string;
  ms_mode : Z;
  ms__state : pystate;
  ms_onStateChange : list handler
}.

Definition MotionSensor__init__ (config : Config) : M MotionSensor :=
  let self := mkMotionSensor (cfg_state config) (cfg_id config)
                (mode_of_config (cfg_state_mode config)) None [] in
  GPIO.setwarnings false ;;
  GPIO.setmode_BCM ;;
  GPIO.setup (ms_state_pin self) IN None (Some PUD_UP) ;;
  GPIO.add_event_detect (ms_state_pin self) BOTH
    MotionSensor__stateChanged_cb 300 ;;
  ret self.

Definition MotionSensor_state (self : MotionSensor) : M string :=
  state <- GPIO.input (ms_state_pin self) ;;
  if state =? ms_mode self then ret "nothing" else ret "detection".

Definition MotionSensor__stateChanged (self : MotionSensor) (channel : Z)
  : M unit :=
  if channel =? ms_state_pin self then
    time_sleep SHORT_WAIT ;;
    v <- MotionSensor_state self ;;
    EventHook.fire (ms_onStateChange self) (Some v)
  else ret tt.

(** *** class GarageDoor and its subclass TwoSwitchGarageDoor *)

(** The class of a door object; a [TwoSwitchGarageDoor] carries the extra
    attribute [open_pin]. *)
Inductive door_class : Type :=
| GarageDoorClass
| TwoSwitchGarageDoorClass (open_pin : Z).

Record Door : Type := mkDoor {
  class_of : door_class;
  relay_opening_pin : Z;
  relay_closing_pin : Z;
  relay_stop_pin : option Z;
  state_pin : Z;
  id : string;
  mode : Z;
  invert_relay : bool;
  check_state_before_command : bool;
  _state : pystate;
  onStateChange : list handler
}.

(** [self._state = v] *)
Definition set__state (self : Door) (v : pystate) : Door :=
  mkDoor (class_of self) (relay_opening_pin self) (relay_closing_pin self)
         (relay_stop_pin self) (state_pin self) (id self) (mode self)
         (invert_relay self) (check_state_before_command self)
         v (onStateChange self).

(** [self.onStateChange.addHandler(h)] *)
Definition add_handler (self : Door) (h : handler) : Door :=
  mkDoor (class_of self) (relay_opening_pin self) (relay_closing_pin self)
         (relay_stop_pin self) (state_pin self) (id self) (mode self)
         (invert_relay self) (check_state_before_command self)
         (_state self) (EventHook.addHandler (onStateChange self) h).

Definition GarageDoor__init__ (config : Config) : M Door :=
  let self := mkDoor GarageDoorClass
                (cfg_relay_opening config) (cfg_relay_closing config)
                (cfg_relay_stop config) (cfg_state config) (cfg_id config)
                (mode_of_config (cfg_state_mode config))
                (py_bool (cfg_invert_relay config))
                (py_bool (cfg_check_state_before_command config))
                None [] in
  GPIO.setwarnings false ;;
  GPIO.setmode_BCM ;;
  GPIO.setup (relay_opening_pin self) OUT (Some (invert_relay self)) None ;;
  GPIO.setup (relay_closing_pin self) OUT (Some (invert_relay self)) None ;;
  match relay_stop_pin self with
  | Some stop_pin => GPIO.setup stop_pin OUT (Some (invert_relay self)) None
  | None => ret tt
  end ;;
  GPIO.setup (state_pin self) IN None (Some PUD_UP) ;;
  GPIO.add_event_detect (state_pin self) BOTH GarageDoor__stateChanged_cb 300 ;;
  ret self.

(** [config['open']] raises [KeyError] when the key is missing: [None]. *)
Definition TwoSwitchGarageDoor__init__ (config : Config) : M (option Door) :=
  parent <- GarageDoor__init__ config ;;
  match cfg_open config with
  | None => ret None
  | Some open_pin =>
      let self := mkDoor (TwoSwitchGarageDoorClass open_pin)
                    (relay_opening_pin parent) (relay_closing_pin parent)
                    (relay_stop_pin parent) (state_pin parent) (id parent)
                    (mode parent) (invert_relay parent)
                    (check_state_before_command parent)
                    (_state parent) (onStateChange parent) in
      GPIO.setup open_pin IN None (Some PUD_UP) ;;
      GPIO.add_event_detect open_pin BOTH
        TwoSwitchGarageDoor__stateChanged_cb 300 ;;
      ret (Some self)
  end.

(** [GarageDoor.state]: read from the pin, nothing stored. *)
Definition GarageDoor_state (self : Door) : M string :=
  state <- GPIO.input (state_pin self) ;;
  if state =? mode self then ret "closed" else ret "open".

(** [TwoSwitchGarageDoor.state]: both switches and the stored [_state]. *)
Definition TwoSwitchGarageDoor_state (self : Door) (open_pin : Z)
  : M (pystate * Door) :=
  s <- GPIO.input (state_pin self) ;;
  let closed_state := if s =? mode self then true else false in
  o <- GPIO.input open_pin ;;
  let open_state := if o =? mode self then true else false in
  let self' :=
    if closed_state then set__state self (Some "closed")
    else if open_state then set__state self (Some "open")
    else if py_eq (_state self) "closed" then set__state self (Some "opening")
    else if py_eq (_state self) "open" then set__state self (Some "closing")
    else self in
  ret (_state self', self').

(** [self.state]: the property of the object's own class. *)
Definition state (self : Door) : M (pystate * Door) :=
  match class_of self with
  | GarageDoorClass => v <- GarageDoor_state self ;; ret (Some v, self)
  | TwoSwitchGarageDoorClass open_pin => TwoSwitchGarageDoor_state self open_pin
  end.

(** Mimic a button press by switching the pin on and off quickly. *)
Definition __press_open (self : Door) : M unit :=
  GPIO.output (relay_opening_pin self) (negb (invert_relay self)) ;;
  time_sleep SHORT_WAIT ;;
  GPIO.output (relay_opening_pin self) (invert_relay self).

Definition __press_close (self : Door) : M unit :=
  GPIO.output (relay_closing_pin self) (negb (invert_relay self)) ;;
  time_sleep SHORT_WAIT ;;
  GPIO.output (relay_closing_pin self) (invert_relay self).

Definition __press_stop (self : Door) : M unit :=
  match relay_stop_pin self with
  | Some stop_pin =>
      GPIO.output stop_pin (negb (invert_relay self)) ;;
      time_sleep SHORT_WAIT ;;
      GPIO.output stop_pin (invert_relay self)
  | None => logging_info "STOP not setup"
  end.

(** [open]: [or] does not evaluate [self.state] when the flag is off. *)
Definition open (self : Door) : M Door :=
  if negb (check_state_before_command self) then
    __press_open self ;; ret self
  else
    r <- state self ;;
    let (v, self') := r in
    if py_eq v "closed" then __press_open self' ;; ret self'
    else ret self'.

Definition close (self : Door) : M Door :=
  if negb (check_state_before_command self) then
    __press_close self ;; ret self
  else
    r <- state self ;;
    let (v, self') := r in
    if py_eq v "open" then __press_close self' ;; ret self'
    else ret self'.

Definition stop (self : Door) : M Door :=
  __press_stop self ;; ret self.

(** [GarageDoor.__stateChanged], registered on [state_pin]. *)
Definition GarageDoor__stateChanged (self : Door) (channel : Z) : M Door :=
  if channel =? state_pin self then
    time_sleep SHORT_WAIT ;;
    r <- state self ;;
    let (v, self') := r in
    EventHook.fire (onStateChange self) v ;;
    ret self'
  else ret self.

(** [TwoSwitchGarageDoor.__stateChanged], registered on [open_pin]. *)
Definition TwoSwitchGarageDoor__stateChanged (self : Door) (open_pin : Z)
           (channel : Z) : M Door :=
  if (channel =? state_pin self) || (channel =? open_pin) then
    time_sleep SHORT_WAIT ;;
    r <- state self ;;
    let (v, self') := r in
    EventHook.fire (onStateChange self) v ;;
    ret self'
  else ret self.

End Garage.

(** ** main.py *)

Module Main.

Import Garage.

(** [door.name]: neither constructor nor the bootstrap loop gives a door
    object a [name] attribute, so the lookup raises [AttributeError]. *)
Definition door_name (door : Door) : option string := None.

Definition execute_command (door : Door) (command : string) : M Door :=
  let doorName :=
    match door_name door with
    | Some n => n
    | None => id door
    end in
  logging_info (String.append "Executing command "
                  (String.append command
                     (String.append " for door " doorName))) ;;
  if String.eqb command "OPEN" then open door
  else if String.eqb command "CLOSE" then close door
  else if String.eqb command "STOP" then stop door
  else logging_info (String.append "Invalid command: " command) ;; ret door.

(** The bootstrap loop picks the class by the presence of the key ['open']:
    [TwoSwitchGarageDoor(cfg)] when it is there, [GarageDoor(cfg)]
    otherwise. *)
Definition make_door (cfg : Config) : M (option Door) :=
  match cfg_open cfg with
  | Some _ => TwoSwitchGarageDoor__init__ cfg
  | None => d <- GarageDoor__init__ cfg ;; ret (Some d)
  end.

(** A Python [str] taken character by character: its Unicode code
    points. *)
Definition pystr : Type := list N.

Section Sanitize.

(** The character classes [\s] and [\w] of the regular-expression library,
    on code points. *)
Variable is_space : N -> bool.
Variable is_word : N -> bool.

(** [re.sub(r'\s', ' ', s)]: every whitespace character becomes a space
    (U+0020). *)
Fixpoint sub_space (s : pystr) : pystr :=
  match s with
  | [] => []
  | c :: s' => (if is_space c then 32%N else c) :: sub_space s'
  end.

(** [re.sub(r'\W+', repl, s)]: every maximal run of non-word characters
    becomes [repl]; [in_run] tells that the run has already been replaced. *)
Fixpoint sub_nonword_runs (repl : pystr) (in_run : bool) (s : pystr)
  : pystr :=
  match s with
  | [] => []
  | c :: s' =>
      if is_word c then c :: sub_nonword_runs repl false s'
      else if in_run then sub_nonword_runs repl true s'
      else repl ++ sub_nonword_runs repl true s'
  end.

(** [re.sub(r'\W+', '', re.sub(r'\s', ' ', cfg['id']))] *)
Definition sanitize_id (id : pystr) : pystr :=
  sub_nonword_runs [] false (sub_space id).

End Sanitize.

End Main.

(** ** Runs: the environment, edge deliveries and command sequences *)

Import Garage.

(** The sensors settle on new levels; no library call is made. *)
Definition sense (lv : Z -> bool) : M unit :=
  fun w => (tt, mkWorld lv (trace w)).

(** A sensor is asserted when its channel reads the configured mode. *)
Definition asserted (self : Door) (channel : Z) (lv : Z -> bool) : bool :=
  Z.b2z (lv channel) =? mode self.

(** Successive evaluations of [self.state], the sensors moving in between;
    the values returned, in order, and the object and world at the end. *)
Fixpoint resolve_all (self : Door) (obs : list (Z -> bool))
  : M (list pystate * Door) :=
  match obs with
  | [] => ret ([], self)
  | lv :: obs' =>
      sense lv ;;
      r <- state self ;;
      rs <- resolve_all (snd r) obs' ;;
      ret (fst r :: fst rs, snd rs)
  end.

Definition resolved (self : Door) (obs : list (Z -> bool)) (w : World)
  : list pystate :=
  fst (fst (resolve_all self obs w)).

(** The edge detections a door object has asked for, as
    [(channel, callback)], in the order of its constructors. *)
Definition registrations (self : Door) : list (Z * callback) :=
  (state_pin self, GarageDoor__stateChanged_cb) ::
  match class_of self with
  | GarageDoorClass => []
  | TwoSwitchGarageDoorClass open_pin =>
      [(open_pin, TwoSwitchGarageDoor__stateChanged_cb)]
  end.

(** The library calls a registered callback with the channel it watches. *)
Definition deliver (self : Door) (r : Z * callback) : M Door :=
  match snd r with
  | GarageDoor__stateChanged_cb => GarageDoor__stateChanged self (fst r)
  | TwoSwitchGarageDoor__stateChanged_cb =>
      match class_of self with
      | TwoSwitchGarageDoorClass open_pin =>
          TwoSwitchGarageDoor__stateChanged self open_pin (fst r)
      | GarageDoorClass => ret self
      end
  | MotionSensor__stateChanged_cb => ret self
  end.

(** Settled edges, one after the other: before each the sensors take new
    levels, then the callback registered for the edge runs. *)
Fixpoint deliver_all (self : Door) (es : list ((Z -> bool) * (Z * callback)))
  : M Door :=
  match es with
  | [] => ret self
  | e :: es' =>
      sense (fst e) ;;
      self' <- deliver self (snd e) ;;
      deliver_all self' es'
  end.

Inductive command : Type := OPEN | CLOSE | STOP.

Definition run_command (self : Door) (c : command) : M Door :=
  match c with
  | OPEN => open self
  | CLOSE => close self
  | STOP => stop self
  end.

Fixpoint run_commands (self : Door) (cs : list command) : M Door :=
  match cs with
  | [] => ret self
  | c :: cs' => self' <- run_command self c ;; run_commands self' cs'
  end.

(** What a trace shows: the writes to output channels, the reads of input
    channels, and the handler invocations. *)
Fixpoint outputs (tr : list event) : list (Z * bool) :=
  match tr with
  | [] => []
  | Output c v :: tr' => (c, v) :: outputs tr'
  | _ :: tr' => outputs tr'
  end.

Fixpoint inputs (tr : list event) : list Z :=
  match tr with
  | [] => []
  | Input c _ :: tr' => c :: inputs tr'
  | _ :: tr' => inputs tr'
  end.

Fixpoint calls (tr : list event) : list (handler * pystate) :=
  match tr with
  | [] => []
  | HandlerCall h v :: tr' => (h, v) :: calls tr'
  | _ :: tr' => calls tr'
  end.

(** The relay channels of a door object. *)
Definition relay_pins (self : Door) : list Z :=
  relay_opening_pin self :: relay_closing_pin self ::
  match relay_stop_pin self with
  | Some stop_pin => [stop_pin]
  | None => []
  end.

(** ** Tables and sample objects used by the statements *)

(** The table the spec expects of the single-sensor door, written from its
    words: the row is the mode (1 for normally-closed wiring), the column
    the reading. *)
Definition expectedTable_door (mode_is_1 read_is_1 : bool) : string :=
  match mode_is_1, read_is_1 with
  | true, true => "closed"
  | true, false => "open"
  | false, true => "open"
  | false, false => "closed"
  end.

(** The same table for the motion sensor. *)
Definition expectedTable_motion (mode_is_1 read_is_1 : bool) : string :=
  match mode_is_1, read_is_1 with
  | true, true => "nothing"
  | true, false => "detection"
  | false, true => "detection"
  | false, false => "nothing"
  end.

(** A door wired as in the sample configuration: relays on channels 23,
    24 and 25, the closed switch on 17. *)
Definition sample_door (cls : door_class) (stop_pin : option Z)
           (invert check : bool) (st : pystate) (hs : list handler) : Door :=
  mkDoor cls 23 24 stop_pin 17 "left" 0 invert check st hs.

Definition sample_sensor : MotionSensor :=
  mkMotionSensor 17 "hall" 0 None [].

(** Channel levels given as the list of the channels that are high. *)
Definition high (cs : list Z) : Z -> bool :=
  fun c => existsb (Z.eqb c) cs.

Definition world0 (cs : list Z) : World := mkWorld (high cs) [].

(** The value [TwoSwitchGarageDoor.state] leaves in [_state] and returns,
    from its two comparisons and the value stored before. *)
Definition two_switch_value (closed_state open_state : bool) (prev : pystate)
  : pystate :=
  if closed_state then Some "closed"
  else if open_state then Some "open"
  else if py_eq prev "closed" then Some "opening"
  else if py_eq prev "open" then Some "closing"
  else prev.

(** Every relay channel of the door is at its idle level [invert_relay]. *)
Definition relays_idle (self : Door) (w : World) : Prop :=
  forall c, In c (relay_pins self) -> levels w c = invert_relay self.

(** The three library calls of one relay pulse on channel [c]. *)
Definition pulse (c : Z) (invert : bool) : list event :=
  [Output c (negb invert); Sleep SHORT_WAIT; Output c invert].

(** A configuration in the shape of the sample file. *)
Definition sample_config (stop_pin open_pin : option Z) (invert : bool)
  : Config :=
  mkConfig "left" 23 24 stop_pin 17 open_pin (Some "normally_open")
           (Some invert) (Some true).

(** How often handler [h] was invoked in a trace. *)
Definition invocations (h : handler) (tr : list event) : nat :=
  count_occ Nat.eq_dec (map fst (calls tr)) h.

(** The invocations one notification of value [v] makes, in order. *)
Definition notified (hs : list handler) (v : pystate)
  : list (handler * pystate) :=
  map (fun h => (h, v)) hs.

(** The edge detections asked for in a trace, as [(channel, callback)], and
    the bounce times they were asked with. *)
Fixpoint detections (tr : list event) : list (Z * callback) :=
  match tr with
  | [] => []
  | AddEventDetect c _ cb _ :: tr' => (c, cb) :: detections tr'
  | _ :: tr' => detections tr'
  end.

Fixpoint bouncetimes (tr : list event) : list Z :=
  match tr with
  | [] => []
  | AddEventDetect _ _ _ b :: tr' => b :: bouncetimes tr'
  | _ :: tr' => bouncetimes tr'
  end.

(** The values [TwoSwitchGarageDoor.state] can leave in [_state]. *)
Definition two_switch_states : list pystate :=
  [None; Some "closed"; Some "open"; Some "opening"; Some "closing"].

(** Two classes for sample runs: the whitespace code points below 256,
    and as word characters the ASCII letters, digits and underscore and the
    letter U+00E9. *)
Definition sample_space (c : N) : bool :=
  (((9 <=? c) && (c <=? 13)) || ((28 <=? c) && (c <=? 32)) ||
   (c =? 133) || (c =? 160))%N.

Definition sample_word (c : N) : bool :=
  (((48 <=? c) && (c <=? 57)) || ((65 <=? c) && (c <=? 90)) ||
   ((97 <=? c) && (c <=? 122)) || (c =? 95) || (c =? 233))%N.

(** ** The debounced edge watcher *)

(** A raw edge: the time it occurs at, in milliseconds, and the channel
    and callback of the edge detection it occurs on. *)
Record raw_edge : Type := mkRawEdge {
  at_ms : Z;
  on : Z * callback
}.

(** Modelled from the spec: the bounce suppression that
    [GPIO.add_event_detect(..., bouncetime=W1)] asks for is done by the
    RPi.GPIO library, which is not among the sources.  The spec describes
    it per watched channel: a raw edge starts a bounce-suppression window
    of [W1] milliseconds, and another raw edge that arrives inside the
    window is ignored; an edge after the window starts the next one.
    [window c] is the start of the last window on channel [c], if any;
    the result is the raw edges that get through, in order. *)
Fixpoint debounce (W1 : Z) (window : Z -> option Z) (es : list raw_edge)
  : list raw_edge :=
  match es with
  | [] => []
  | e :: es' =>
      let started :=
        fun c => if c =? fst (on e) then Some (at_ms e) else window c in
      match window (fst (on e)) with
      | Some t0 =>
          if at_ms e <? t0 + W1 then debounce W1 window es'
          else e :: debounce W1 started es'
      | None => e :: debounce W1 started es'
      end
  end.

(** Modelled from the spec: the watcher hands an edge that got through to
    the registered callback once its window has elapsed. *)
Definition invoked_at (W1 : Z) (e : raw_edge) : Z := at_ms e + W1.

(** The callback invoked at [invoked_at W1 e] begins with
    [time.sleep(SHORT_WAIT)] and reads nothing before it, so what it reads
    are the levels [signal] gives [SHORT_WAIT] later; [signal t c] is the
    level of channel [c] at time [t]. *)
Definition settled (W1 : Z) (signal : Z -> Z -> bool) (e : raw_edge)
  : (Z -> bool) * (Z * callback) :=
  (signal (invoked_at W1 e + SHORT_WAIT), on e).

(** Raw edges on the channels of a door, from no window open: those that
    get through are delivered one after the other. *)
Definition watch (W1 : Z) (signal : Z -> Z -> bool) (self : Door)
           (es : list raw_edge) : M Door :=
  deliver_all self (map (settled W1 signal) (debounce W1 (fun _ => None) es)).

(** The reads one evaluation of [self.state] makes at levels [lv]. *)
Definition reads_of (self : Door) (lv : Z -> bool) : list event :=
  Input (state_pin self) (Z.b2z (lv (state_pin self))) ::
  match class_of self with
  | GarageDoorClass => []
  | TwoSwitchGarageDoorClass open_pin => [Input open_pin (Z.b2z (lv open_pin))]
  end.

(** * Properties *)

(** ** The resolvers of the single-sensor door and of the motion sensor *)

Lemma b2z_eqb (a b : bool) : (Z.b2z a =? Z.b2z b) = Bool.eqb a b.
Proof. destruct a, b; reflexivity. Qed.

Lemma GarageDoor_state_eq (self : Door) (w : World) :
  GarageDoor_state self w =
  ((if asserted self (state_pin self) (levels w) then "closed" else "open"),
   mkWorld (levels w)
     (trace w ++ [Input (state_pin self)
                    (Z.b2z (levels w (state_pin self)))])).
Proof.
  unfold GarageDoor_state, bind, GPIO.input, asserted; simpl.
  destruct (Z.b2z (levels w (state_pin self)) =? mode self); reflexivity.
Qed.

Lemma MotionSensor_state_eq (self : MotionSensor) (w : World) :
  MotionSensor_state self w =
  ((if Z.b2z (levels w (ms_state_pin self)) =? ms_mode self
    then "nothing" else "detection"),
   mkWorld (levels w)
     (trace w ++ [Input (ms_state_pin self)
                    (Z.b2z (levels w (ms_state_pin self)))])).
Proof.
  unfold MotionSensor_state, bind, GPIO.input; simpl.
  destruct (Z.b2z (levels w (ms_state_pin self)) =? ms_mode self);
    reflexivity.
Qed.

(** C3.  The single-sensor door resolver and the motion-sensor resolver are
    functions of the one reading and the mode only: with mode [m] (1 for
    [normally_closed], 0 for [normally_open]) and reading [r], the door is
    ['closed'] when [r] equals [m] and ['open'] otherwise, the motion sensor
    ['nothing'] when [r] equals [m] and ['detection'] otherwise, as in the
    2x2 table, whatever the stored attributes and the world; evaluating
    them changes neither a level nor (for the door) the object. *)
Theorem single_sensor_resolvers_follow_table
  (m r : bool) (door : Door) (sensor : MotionSensor) (w : World)
  (Hclass : class_of door = GarageDoorClass)
  (Hdoor_mode : mode door = Z.b2z m)
  (Hsensor_mode : ms_mode sensor = Z.b2z m)
  (Hdoor_read : levels w (state_pin door) = r)
  (Hsensor_read : levels w (ms_state_pin sensor) = r) :
  mode_of_config (Some "normally_closed") = 1 /\
  mode_of_config (Some "normally_open") = 0 /\
  fst (GarageDoor_state door w) = expectedTable_door m r /\
  fst (GarageDoor_state door w) = (if Bool.eqb r m then "closed" else "open") /\
  fst (state door w) = (Some (expectedTable_door m r), door) /\
  levels (snd (state door w)) = levels w /\
  fst (MotionSensor_state sensor w) = expectedTable_motion m r /\
  fst (MotionSensor_state sensor w)
    = (if Bool.eqb r m then "nothing" else "detection") /\
  levels (snd (MotionSensor_state sensor w)) = levels w.
Proof.
  split; [reflexivity|]. split; [reflexivity|].
  unfold state. rewrite Hclass. unfold bind, ret.
  rewrite GarageDoor_state_eq, MotionSensor_state_eq. unfold asserted.
  rewrite Hdoor_mode, Hsensor_mode, Hdoor_read, Hsensor_read.
  rewrite b2z_eqb. simpl.
  destruct m, r; simpl; repeat split; reflexivity.
Qed.

Lemma single_sensor_resolvers_follow_table_witness :
  fst (GarageDoor_state (sample_door GarageDoorClass None false true None [])
         (world0 [17]))
  = expectedTable_door false true /\
  fst (MotionSensor_state sample_sensor (world0 [17]))
  = expectedTable_motion false true.
Proof.
  destruct (single_sensor_resolvers_follow_table false true
              (sample_door GarageDoorClass None false true None [])
              sample_sensor (world0 [17])
              eq_refl eq_refl eq_refl eq_refl eq_refl)
    as (_ & _ & Hdoor & _ & _ & _ & Hsensor & _).
  split; assumption.
Defined.

(** ** The resolver of the two-switch door *)

Lemma py_eq_true (v : pystate) (lit : string) :
  py_eq v lit = true <-> v = Some lit.
Proof.
  destruct v as [s|]; simpl.
  - rewrite String.eqb_eq. split; congruence.
  - split; discriminate.
Qed.

Lemma py_eq_false (v : pystate) (lit : string) :
  py_eq v lit = false <-> v <> Some lit.
Proof.
  rewrite <- py_eq_true. destruct (py_eq v lit); split; congruence.
Qed.

Lemma set__state_same (self : Door) : set__state self (_state self) = self.
Proof. destruct self; reflexivity. Qed.

Lemma TwoSwitchGarageDoor_state_eq (self : Door) (p : Z) (w : World) :
  TwoSwitchGarageDoor_state self p w =
  let v := two_switch_value (asserted self (state_pin self) (levels w))
             (asserted self p (levels w)) (_state self) in
  ((v, set__state self v),
   mkWorld (levels w)
     (trace w ++ [Input (state_pin self) (Z.b2z (levels w (state_pin self)));
                  Input p (Z.b2z (levels w p))])).
Proof.
  unfold TwoSwitchGarageDoor_state, bind, ret, GPIO.input, asserted,
    two_switch_value; simpl.
  rewrite <- app_assoc; simpl.
  destruct (Z.b2z (levels w (state_pin self)) =? mode self);
    [reflexivity|].
  destruct (Z.b2z (levels w p) =? mode self); [reflexivity|].
  destruct (py_eq (_state self) "closed"); [reflexivity|].
  destruct (py_eq (_state self) "open"); [reflexivity|].
  rewrite set__state_same. reflexivity.
Qed.

(** C1.  [TwoSwitchGarageDoor.state] resolves by first match: closed switch
    asserted gives ['closed']; else open switch asserted gives ['open'];
    else a stored ['closed'] gives ['opening']; else a stored ['open'] gives
    ['closing']; else the stored value (['opening'], ['closing'], [None] or
    anything else) is returned as it is and the object is left as it was.
    In every case a value is returned and the stored field equals it
    afterwards; an object that has stored nothing yet resolves to ['closed']
    as soon as the closed switch is asserted. *)
Theorem two_switch_state_first_match (self : Door) (p : Z) (w : World) :
  let c := asserted self (state_pin self) (levels w) in
  let o := asserted self p (levels w) in
  let v := fst (fst (TwoSwitchGarageDoor_state self p w)) in
  let self' := snd (fst (TwoSwitchGarageDoor_state self p w)) in
  (c = true -> v = Some "closed") /\
  (c = false -> o = true -> v = Some "open") /\
  (c = false -> o = false -> _state self = Some "closed" ->
   v = Some "opening") /\
  (c = false -> o = false -> _state self = Some "open" ->
   v = Some "closing") /\
  (c = false -> o = false ->
   _state self <> Some "closed" -> _state self <> Some "open" ->
   v = _state self /\ self' = self) /\
  (_state self = None -> c = true -> v = Some "closed") /\
  _state self' = v /\
  self' = set__state self v /\
  (class_of self = TwoSwitchGarageDoorClass p ->
   state self w = TwoSwitchGarageDoor_state self p w).
Proof.
  cbv zeta. rewrite TwoSwitchGarageDoor_state_eq. cbv zeta. simpl.
  unfold two_switch_value.
  refine (conj _ (conj _ (conj _ (conj _ (conj _ (conj _
            (conj eq_refl (conj eq_refl _)))))))).
  - intros ->. reflexivity.
  - intros -> ->. reflexivity.
  - intros -> -> ->. reflexivity.
  - intros -> -> ->. reflexivity.
  - intros -> -> H1 H2.
    apply py_eq_false in H1, H2. rewrite H1, H2.
    split; [reflexivity | apply set__state_same].
  - intros _ ->. reflexivity.
  - intros H. unfold state. rewrite H.
    rewrite TwoSwitchGarageDoor_state_eq. reflexivity.
Qed.

Lemma two_switch_state_first_match_witness :
  fst (fst (TwoSwitchGarageDoor_state
              (sample_door (TwoSwitchGarageDoorClass 27) None false true
                 None [])
              27 (world0 [27])))
  = Some "closed".
Proof.
  destruct (two_switch_state_first_match
              (sample_door (TwoSwitchGarageDoorClass 27) None false true
                 None [])
              27 (world0 [27]))
    as (_ & _ & _ & _ & _ & Hunknown & _).
  apply Hunknown; reflexivity.
Defined.

(** ** Sequences of resolutions of the two-switch door *)

Lemma state_two_switch (self : Door) (p : Z) (w : World) :
  class_of self = TwoSwitchGarageDoorClass p ->
  state self w =
  let v := two_switch_value (asserted self (state_pin self) (levels w))
             (asserted self p (levels w)) (_state self) in
  ((v, set__state self v),
   mkWorld (levels w)
     (trace w ++ [Input (state_pin self) (Z.b2z (levels w (state_pin self)));
                  Input p (Z.b2z (levels w p))])).
Proof.
  intros H. unfold state. rewrite H. apply TwoSwitchGarageDoor_state_eq.
Qed.

Lemma resolved_cons (self : Door) (p : Z) (lv : Z -> bool)
      (obs : list (Z -> bool)) (w : World) :
  class_of self = TwoSwitchGarageDoorClass p ->
  exists w1,
    resolved self (lv :: obs) w =
    let v := two_switch_value (asserted self (state_pin self) lv)
               (asserted self p lv) (_state self) in
    v :: resolved (set__state self v) obs w1.
Proof.
  intros H. unfold resolved. simpl. unfold bind at 1. unfold sense at 1.
  unfold bind at 1. rewrite (state_two_switch _ p) by exact H.
  cbv zeta. simpl levels. simpl snd. simpl fst.
  eexists. unfold bind at 1.
  destruct (resolve_all _ obs _) as [rs w2] eqn:E.
  simpl. rewrite E. reflexivity.
Qed.

Lemma resolved_step (obs : list (Z -> bool)) :
  forall (self : Door) (p : Z) (w : World) (i : nat) (a : pystate)
         (lv : Z -> bool),
    class_of self = TwoSwitchGarageDoorClass p ->
    nth_error (resolved self obs w) i = Some a ->
    nth_error obs (S i) = Some lv ->
    nth_error (resolved self obs w) (S i) =
    Some (two_switch_value (asserted self (state_pin self) lv)
            (asserted self p lv) a).
Proof.
  induction obs as [|lv0 obs IH]; intros self p w i a lv Hc Ha Hlv.
  - discriminate.
  - destruct (resolved_cons self p lv0 obs w Hc) as [w1 E].
    rewrite E in *. cbv zeta in *. clear E.
    set (v0 := two_switch_value _ _ _) in *.
    destruct i as [|i]; simpl in Ha, Hlv |- *.
    + injection Ha as <-.
      destruct obs as [|lv1 obs]; [discriminate|].
      simpl in Hlv. injection Hlv as ->.
      destruct (resolved_cons (set__state self v0) p lv obs w1 Hc)
        as [w2 E2].
      rewrite E2. reflexivity.
    + apply (IH (set__state self v0) p w1 i a lv Hc Ha Hlv).
Qed.

Lemma resolved_quiet_stretch (self : Door) (p : Z) (obs : list (Z -> bool))
      (w : World) (i k : nat) (a t : pystate) :
  class_of self = TwoSwitchGarageDoorClass p ->
  (forall j lv, (i < j <= i + k)%nat -> nth_error obs j = Some lv ->
                asserted self (state_pin self) lv = false /\
                asserted self p lv = false) ->
  (i + k < List.length obs)%nat ->
  two_switch_value false false a = t ->
  two_switch_value false false t = t ->
  nth_error (resolved self obs w) i = Some a ->
  forall d, (1 <= d <= k)%nat ->
            nth_error (resolved self obs w) (i + d) = Some t.
Proof.
  intros Hc Hq Hlen Hat Htt Ha d.
  induction d as [|d IH]; intros Hd; [lia|].
  replace (i + S d)%nat with (S (i + d)) by lia.
  destruct (nth_error obs (S (i + d))) as [lv|] eqn:Elv.
  2:{ apply nth_error_None in Elv. lia. }
  destruct (Hq (S (i + d)) lv ltac:(lia) Elv) as [Hcl Hop].
  destruct d as [|d].
  - replace (i + 0)%nat with i in * by lia.
    rewrite (resolved_step obs self p w i a lv Hc Ha Elv).
    rewrite Hcl, Hop, Hat. reflexivity.
  - rewrite (resolved_step obs self p w (i + S d) t lv Hc
               (IH ltac:(lia)) Elv).
    rewrite Hcl, Hop, Htt. reflexivity.
Qed.

(** C4.  In any sequence of resolutions of a two-switch door, whatever the
    sensor levels at each of them: when resolution [i] gave ['closed'] and
    neither switch is asserted at the resolutions after it (one or more,
    up to [i + k]), each of these resolves to ['opening']; when resolution
    [i] gave ['open'], each resolves to ['closing'].  So a resolution
    following ['closed'] with neither switch asserted is never ['open'], and
    one following ['open'] is never ['closed']. *)
Theorem two_switch_passes_through_transient
  (self : Door) (p : Z) (obs : list (Z -> bool)) (w : World) (i k : nat)
  (Hclass : class_of self = TwoSwitchGarageDoorClass p)
  (Hquiet : forall j lv, (i < j <= i + k)%nat -> nth_error obs j = Some lv ->
                         asserted self (state_pin self) lv = false /\
                         asserted self p lv = false)
  (Hlen : (i + k < List.length obs)%nat) :
  (nth_error (resolved self obs w) i = Some (Some "closed") ->
   forall j, (i < j <= i + k)%nat ->
             nth_error (resolved self obs w) j = Some (Some "opening")) /\
  (nth_error (resolved self obs w) i = Some (Some "open") ->
   forall j, (i < j <= i + k)%nat ->
             nth_error (resolved self obs w) j = Some (Some "closing")).
Proof.
  split; intros Hi j Hj;
    replace j with (i + (j - i))%nat by lia.
  - apply (resolved_quiet_stretch self p obs w i k (Some "closed")
             (Some "opening") Hclass Hquiet Hlen eq_refl eq_refl Hi).
    lia.
  - apply (resolved_quiet_stretch self p obs w i k (Some "open")
             (Some "closing") Hclass Hquiet Hlen eq_refl eq_refl Hi).
    lia.
Qed.

Lemma two_switch_passes_through_transient_witness :
  resolved (sample_door (TwoSwitchGarageDoorClass 27) None false true None [])
    [high [27]; high [17; 27]; high [17]] (world0 [])
  = [Some "closed"; Some "opening"; Some "open"] /\
  nth_error
    (resolved
       (sample_door (TwoSwitchGarageDoorClass 27) None false true None [])
       [high [27]; high [17; 27]; high [17]] (world0 []))
    1
  = Some (Some "opening").
Proof.
  split; [reflexivity|].
  refine (proj1 (two_switch_passes_through_transient
                   (sample_door (TwoSwitchGarageDoorClass 27) None false true
                      None [])
                   27 [high [27]; high [17; 27]; high [17]] (world0 [])
                   0%nat 1%nat eq_refl _ _) eq_refl 1%nat _).
  - intros j lv Hj Hlv.
    assert (j = 1%nat) as -> by lia.
    simpl in Hlv. injection Hlv as <-. split; reflexivity.
  - simpl. lia.
  - lia.
Defined.

(** ** Relay pulses *)

Lemma outputs_app (a b : list event) :
  outputs (a ++ b) = outputs a ++ outputs b.
Proof.
  induction a as [|e a IH]; [reflexivity|].
  destruct e; simpl; rewrite IH; reflexivity.
Qed.

Lemma inputs_app (a b : list event) :
  inputs (a ++ b) = inputs a ++ inputs b.
Proof.
  induction a as [|e a IH]; [reflexivity|].
  destruct e; simpl; rewrite IH; reflexivity.
Qed.

Lemma calls_app (a b : list event) : calls (a ++ b) = calls a ++ calls b.
Proof.
  induction a as [|e a IH]; [reflexivity|].
  destruct e; simpl; rewrite IH; reflexivity.
Qed.

Lemma set_level_twice (c : Z) (u v : bool) (lv : Z -> bool) (x : Z) :
  set_level c v (set_level c u lv) x = if x =? c then v else lv x.
Proof. unfold set_level. destruct (x =? c); reflexivity. Qed.

Lemma press_open_eq (self : Door) (w : World) :
  __press_open self w =
  (tt, mkWorld (set_level (relay_opening_pin self) (invert_relay self)
                  (set_level (relay_opening_pin self)
                     (negb (invert_relay self)) (levels w)))
               (trace w ++ pulse (relay_opening_pin self)
                                 (invert_relay self))).
Proof.
  unfold __press_open, bind, GPIO.output, time_sleep, emit, pulse; simpl.
  repeat rewrite <- app_assoc. reflexivity.
Qed.

Lemma press_close_eq (self : Door) (w : World) :
  __press_close self w =
  (tt, mkWorld (set_level (relay_closing_pin self) (invert_relay self)
                  (set_level (relay_closing_pin self)
                     (negb (invert_relay self)) (levels w)))
               (trace w ++ pulse (relay_closing_pin self)
                                 (invert_relay self))).
Proof.
  unfold __press_close, bind, GPIO.output, time_sleep, emit, pulse; simpl.
  repeat rewrite <- app_assoc. reflexivity.
Qed.

Lemma press_stop_some (self : Door) (stop_pin : Z) (w : World) :
  relay_stop_pin self = Some stop_pin ->
  __press_stop self w =
  (tt, mkWorld (set_level stop_pin (invert_relay self)
                  (set_level stop_pin (negb (invert_relay self)) (levels w)))
               (trace w ++ pulse stop_pin (invert_relay self))).
Proof.
  intros H. unfold __press_stop. rewrite H.
  unfold bind, GPIO.output, time_sleep, emit, pulse; simpl.
  repeat rewrite <- app_assoc. reflexivity.
Qed.

Lemma press_stop_none (self : Door) (w : World) :
  relay_stop_pin self = None ->
  __press_stop self w =
  (tt, mkWorld (levels w) (trace w ++ [LogInfo "STOP not setup"])).
Proof. intros H. unfold __press_stop. rewrite H. reflexivity. Qed.

(** Evaluating [self.state] reads channels and may assign [_state]; it
    writes no channel, calls no handler and changes no level. *)
Lemma state_effect (self : Door) (w : World) :
  exists (v st : pystate) (tr : list event),
    state self w = ((v, set__state self st),
                    mkWorld (levels w) (trace w ++ tr)) /\
    outputs tr = [] /\ calls tr = [].
Proof.
  destruct (class_of self) as [|p] eqn:E.
  - unfold state. rewrite E. unfold bind, ret.
    rewrite GarageDoor_state_eq.
    eexists _, (_state self), _. rewrite set__state_same.
    split; [reflexivity|]. split; reflexivity.
  - rewrite (state_two_switch self p w E). cbv zeta.
    eexists _, _, _. split; [reflexivity|]. split; reflexivity.
Qed.

Lemma open_unchecked (self : Door) (w : World) :
  check_state_before_command self = false ->
  open self w = (self, snd (__press_open self w)).
Proof.
  intros H. unfold open. rewrite H. cbn [negb]. unfold bind, ret.
  destruct (__press_open self w) as [[] w']. reflexivity.
Qed.

Lemma close_unchecked (self : Door) (w : World) :
  check_state_before_command self = false ->
  close self w = (self, snd (__press_close self w)).
Proof.
  intros H. unfold close. rewrite H. cbn [negb]. unfold bind, ret.
  destruct (__press_close self w) as [[] w']. reflexivity.
Qed.

Lemma open_checked (self : Door) (w : World) :
  check_state_before_command self = true ->
  open self w =
  let r := state self w in
  if py_eq (fst (fst r)) "closed"
  then (snd (fst r), snd (__press_open (snd (fst r)) (snd r)))
  else (snd (fst r), snd r).
Proof.
  intros H. unfold open. rewrite H. cbn [negb]. unfold bind at 1.
  destruct (state self w) as [[v self1] w1]. cbn [fst snd]. cbv zeta.
  destruct (py_eq v "closed"); [|reflexivity].
  unfold bind, ret. destruct (__press_open self1 w1) as [[] w']. reflexivity.
Qed.

Lemma close_checked (self : Door) (w : World) :
  check_state_before_command self = true ->
  close self w =
  let r := state self w in
  if py_eq (fst (fst r)) "open"
  then (snd (fst r), snd (__press_close (snd (fst r)) (snd r)))
  else (snd (fst r), snd r).
Proof.
  intros H. unfold close. rewrite H. cbn [negb]. unfold bind at 1.
  destruct (state self w) as [[v self1] w1]. cbn [fst snd]. cbv zeta.
  destruct (py_eq v "open"); [|reflexivity].
  unfold bind, ret. destruct (__press_close self1 w1) as [[] w']. reflexivity.
Qed.

Lemma open_dropped (self : Door) (w : World) :
  check_state_before_command self = true ->
  fst (fst (state self w)) <> Some "closed" ->
  outputs (trace (snd (open self w))) = outputs (trace w) /\
  levels (snd (open self w)) = levels w.
Proof.
  intros Hc Hv. rewrite (open_checked self w Hc). cbv zeta.
  apply py_eq_false in Hv. rewrite Hv. simpl.
  destruct (state_effect self w) as (v & st & tr & E & Ho & _).
  rewrite E. simpl. rewrite outputs_app, Ho, app_nil_r. split; reflexivity.
Qed.

Lemma close_dropped (self : Door) (w : World) :
  check_state_before_command self = true ->
  fst (fst (state self w)) <> Some "open" ->
  outputs (trace (snd (close self w))) = outputs (trace w) /\
  levels (snd (close self w)) = levels w.
Proof.
  intros Hc Hv. rewrite (close_checked self w Hc). cbv zeta.
  apply py_eq_false in Hv. rewrite Hv. simpl.
  destruct (state_effect self w) as (v & st & tr & E & Ho & _).
  rewrite E. simpl. rewrite outputs_app, Ho, app_nil_r. split; reflexivity.
Qed.

Lemma open_pulsed (self : Door) (w : World) :
  check_state_before_command self = true ->
  fst (fst (state self w)) = Some "closed" ->
  outputs (trace (snd (open self w))) =
  outputs (trace w) ++ [(relay_opening_pin self, negb (invert_relay self));
                        (relay_opening_pin self, invert_relay self)].
Proof.
  intros Hc Hv. rewrite (open_checked self w Hc). cbv zeta.
  apply py_eq_true in Hv. rewrite Hv.
  destruct (state_effect self w) as (v & st & tr & E & Ho & _).
  rewrite E. cbn [fst snd]. rewrite press_open_eq. simpl.
  rewrite !outputs_app, Ho, app_nil_r. reflexivity.
Qed.

Lemma close_pulsed (self : Door) (w : World) :
  check_state_before_command self = true ->
  fst (fst (state self w)) = Some "open" ->
  outputs (trace (snd (close self w))) =
  outputs (trace w) ++ [(relay_closing_pin self, negb (invert_relay self));
                        (relay_closing_pin self, invert_relay self)].
Proof.
  intros Hc Hv. rewrite (close_checked self w Hc). cbv zeta.
  apply py_eq_true in Hv. rewrite Hv.
  destruct (state_effect self w) as (v & st & tr & E & Ho & _).
  rewrite E. cbn [fst snd]. rewrite press_close_eq. simpl.
  rewrite !outputs_app, Ho, app_nil_r. reflexivity.
Qed.

(** C2.  With [check_state_before_command] on, [open] writes no channel
    unless the state resolved at the call is exactly ['closed'], and [close]
    writes none unless it is exactly ['open']; in particular a command
    issued while the state resolves to ['opening'] or ['closing'] is dropped.
    When the state matches, and always when the flag is off, the command
    pulses its relay: the active level, then the idle level. *)
Theorem precondition_gates_open_and_close (self : Door) (w : World) :
  let v := fst (fst (state self w)) in
  let inv := invert_relay self in
  let open_pulse := [(relay_opening_pin self, negb inv);
                     (relay_opening_pin self, inv)] in
  let close_pulse := [(relay_closing_pin self, negb inv);
                      (relay_closing_pin self, inv)] in
  (check_state_before_command self = true -> v <> Some "closed" ->
   outputs (trace (snd (open self w))) = outputs (trace w) /\
   levels (snd (open self w)) = levels w) /\
  (check_state_before_command self = true -> v <> Some "open" ->
   outputs (trace (snd (close self w))) = outputs (trace w) /\
   levels (snd (close self w)) = levels w) /\
  (check_state_before_command self = true ->
   v = Some "opening" \/ v = Some "closing" ->
   outputs (trace (snd (open self w))) = outputs (trace w) /\
   outputs (trace (snd (close self w))) = outputs (trace w)) /\
  (check_state_before_command self = true -> v = Some "closed" ->
   outputs (trace (snd (open self w))) = outputs (trace w) ++ open_pulse) /\
  (check_state_before_command self = true -> v = Some "open" ->
   outputs (trace (snd (close self w))) = outputs (trace w) ++ close_pulse) /\
  (check_state_before_command self = false ->
   outputs (trace (snd (open self w))) = outputs (trace w) ++ open_pulse /\
   outputs (trace (snd (close self w))) = outputs (trace w) ++ close_pulse).
Proof.
  cbv zeta.
  refine (conj _ (conj _ (conj _ (conj _ (conj _ _))))).
  - apply open_dropped.
  - apply close_dropped.
  - intros Hc Hv. split.
    + apply (open_dropped self w Hc). destruct Hv as [-> | ->]; discriminate.
    + apply (close_dropped self w Hc). destruct Hv as [-> | ->]; discriminate.
  - apply open_pulsed.
  - apply close_pulsed.
  - intros Hc. rewrite (open_unchecked self w Hc), (close_unchecked self w Hc).
    rewrite press_open_eq, press_close_eq. simpl.
    rewrite !outputs_app. split; reflexivity.
Qed.

Lemma precondition_gates_open_and_close_witness :
  outputs (trace (snd (open
     (sample_door (TwoSwitchGarageDoorClass 27) None false true
        (Some "closed") [])
     (world0 [17; 27])))) = [] /\
  outputs (trace (snd (open
     (sample_door GarageDoorClass None false true None [])
     (world0 [17])))) = [] /\
  outputs (trace (snd (open
     (sample_door GarageDoorClass None false false None [])
     (world0 [17])))) = [(23, true); (23, false)].
Proof.
  split; [|split].
  - destruct (precondition_gates_open_and_close
                (sample_door (TwoSwitchGarageDoorClass 27) None false true
                   (Some "closed") [])
                (world0 [17; 27])) as (_ & _ & H & _).
    apply (H eq_refl). left. reflexivity.
  - destruct (precondition_gates_open_and_close
                (sample_door GarageDoorClass None false true None [])
                (world0 [17])) as (H & _).
    apply (H eq_refl). discriminate.
  - destruct (precondition_gates_open_and_close
                (sample_door GarageDoorClass None false false None [])
                (world0 [17])) as (_ & _ & _ & _ & _ & H).
    apply (H eq_refl).
Defined.

(** ** Idle level of the relays *)

Lemma relays_idle_levels (self : Door) (w w' : World) :
  levels w' = levels w -> relays_idle self w -> relays_idle self w'.
Proof. intros E H c Hc. rewrite E. apply H, Hc. Qed.

Lemma relays_idle_set__state (self : Door) (st : pystate) (w : World) :
  relays_idle (set__state self st) w <-> relays_idle self w.
Proof. unfold relays_idle; simpl. reflexivity. Qed.

Lemma relays_idle_after_pulse (self : Door) (w : World) (p : Z)
      (tr : list event) :
  relays_idle self w ->
  relays_idle self
    (mkWorld (set_level p (invert_relay self)
                (set_level p (negb (invert_relay self)) (levels w))) tr).
Proof.
  intros H c Hc. simpl. rewrite set_level_twice.
  destruct (c =? p); [reflexivity | apply H, Hc].
Qed.

Lemma GarageDoor__init__idle (config : Config) (w0 : World) :
  relays_idle (fst (GarageDoor__init__ config w0))
              (snd (GarageDoor__init__ config w0)).
Proof.
  unfold GarageDoor__init__, relays_idle, relay_pins, bind, ret,
    GPIO.setwarnings, GPIO.setmode_BCM, GPIO.setup, GPIO.add_event_detect,
    emit; simpl.
  destruct (cfg_relay_stop config) as [sp|]; simpl; unfold set_level;
    intros c Hc.
  - destruct Hc as [<- | [<- | [<- | []]]];
      rewrite ?Z.eqb_refl;
      repeat (match goal with |- context [?a =? ?b] => destruct (a =? b) end);
      reflexivity.
  - destruct Hc as [<- | [<- | []]];
      rewrite ?Z.eqb_refl;
      repeat (match goal with |- context [?a =? ?b] => destruct (a =? b) end);
      reflexivity.
Qed.

Lemma TwoSwitchGarageDoor__init__idle (config : Config) (w0 : World)
      (d : Door) :
  fst (TwoSwitchGarageDoor__init__ config w0) = Some d ->
  relays_idle d (snd (TwoSwitchGarageDoor__init__ config w0)).
Proof.
  pose proof (GarageDoor__init__idle config w0) as Hp.
  destruct (TwoSwitchGarageDoor__init__ config w0) as [r w2] eqn:E.
  cbn [fst snd]. intros ->.
  unfold TwoSwitchGarageDoor__init__ in E. unfold bind at 1 in E.
  destruct (GarageDoor__init__ config w0) as [parent w1].
  destruct (cfg_open config) as [op|]; [|discriminate].
  unfold bind, ret, GPIO.setup, GPIO.add_event_detect, emit in E.
  cbn [fst snd levels trace] in E.
  injection E as <- <-. exact Hp.
Qed.

Lemma run_command_idle (self : Door) (c : command) (w : World) :
  relays_idle self w ->
  exists st, fst (run_command self c w) = set__state self st /\
             relays_idle self (snd (run_command self c w)).
Proof.
  intros H.
  destruct (state_effect self w) as (v & st & tr & E & _).
  destruct c; simpl.
  - destruct (check_state_before_command self) eqn:Hc.
    + rewrite (open_checked self w Hc), E. cbv zeta. cbn [fst snd].
      exists st. destruct (py_eq v "closed").
      * rewrite press_open_eq. cbn [fst snd]. split; [reflexivity|].
        simpl invert_relay.
        apply relays_idle_after_pulse.
        apply (relays_idle_levels self w); [reflexivity | exact H].
      * split; [reflexivity|].
        apply (relays_idle_levels self w); [reflexivity | exact H].
    + rewrite (open_unchecked self w Hc), press_open_eq.
      exists (_state self). rewrite set__state_same.
      split; [reflexivity|]. apply relays_idle_after_pulse, H.
  - destruct (check_state_before_command self) eqn:Hc.
    + rewrite (close_checked self w Hc), E. cbv zeta. cbn [fst snd].
      exists st. destruct (py_eq v "open").
      * rewrite press_close_eq. cbn [fst snd]. split; [reflexivity|].
        simpl invert_relay.
        apply relays_idle_after_pulse.
        apply (relays_idle_levels self w); [reflexivity | exact H].
      * split; [reflexivity|].
        apply (relays_idle_levels self w); [reflexivity | exact H].
    + rewrite (close_unchecked self w Hc), press_close_eq.
      exists (_state self). rewrite set__state_same.
      split; [reflexivity|]. apply relays_idle_after_pulse, H.
  - exists (_state self). rewrite set__state_same.
    unfold stop, bind, ret.
    destruct (relay_stop_pin self) as [sp|] eqn:Es.
    + rewrite (press_stop_some self sp w Es).
      split; [reflexivity|]. apply relays_idle_after_pulse, H.
    + rewrite (press_stop_none self w Es).
      split; [reflexivity|].
      apply (relays_idle_levels self w); [reflexivity | exact H].
Qed.

Lemma run_commands_idle (cs : list command) :
  forall (self : Door) (w : World),
    relays_idle self w ->
    relays_idle (fst (run_commands self cs w)) (snd (run_commands self cs w)).
Proof.
  induction cs as [|c cs IH]; intros self w H; [exact H|].
  simpl. unfold bind.
  destruct (run_command_idle self c w H) as (st & E1 & E2).
  destruct (run_command self c w) as [self1 w1]. simpl in E1, E2. subst self1.
  apply IH. apply relays_idle_set__state. exact E2.
Qed.

(** C5.  Each of the three pulse operations writes its own relay channel
    and no other: first the active level, the negation of [invert_relay],
    then after a sleep of [SHORT_WAIT] (200 ms) the idle level
    [invert_relay].  The constructors leave every relay channel at that same
    idle level, and every relay channel is at it again after any sequence
    of [open], [close] and [stop] calls. *)
Theorem relay_pulse_returns_to_idle
  (self : Door) (w : World) (config : Config) (w0 : World)
  (cs : list command) :
  let inv := invert_relay self in
  let after_open := snd (__press_open self w) in
  let after_close := snd (__press_close self w) in
  let after_stop := snd (__press_stop self w) in
  let built := GarageDoor__init__ config w0 in
  SHORT_WAIT = 200 /\
  trace after_open =
    trace w ++ [Output (relay_opening_pin self) (negb inv);
                Sleep SHORT_WAIT;
                Output (relay_opening_pin self) inv] /\
  (forall c, levels after_open c =
             if c =? relay_opening_pin self then inv else levels w c) /\
  trace after_close =
    trace w ++ [Output (relay_closing_pin self) (negb inv);
                Sleep SHORT_WAIT;
                Output (relay_closing_pin self) inv] /\
  (forall c, levels after_close c =
             if c =? relay_closing_pin self then inv else levels w c) /\
  (forall stop_pin,
      relay_stop_pin self = Some stop_pin ->
      trace after_stop =
        trace w ++ [Output stop_pin (negb inv); Sleep SHORT_WAIT;
                    Output stop_pin inv] /\
      (forall c, levels after_stop c =
                 if c =? stop_pin then inv else levels w c)) /\
  invert_relay (fst built) = py_bool (cfg_invert_relay config) /\
  relays_idle (fst built) (snd built) /\
  (forall d, fst (TwoSwitchGarageDoor__init__ config w0) = Some d ->
             relays_idle d (snd (TwoSwitchGarageDoor__init__ config w0))) /\
  (relays_idle self w ->
   relays_idle (fst (run_commands self cs w))
               (snd (run_commands self cs w))) /\
  relays_idle (fst (run_commands (fst built) cs (snd built)))
              (snd (run_commands (fst built) cs (snd built))).
Proof.
  cbv zeta.
  rewrite press_open_eq, press_close_eq. cbn [fst snd levels trace].
  refine (conj eq_refl (conj eq_refl (conj _ (conj eq_refl (conj _
            (conj _ (conj _ (conj _ (conj _ (conj _ _)))))))))).
  - intros c. apply set_level_twice.
  - intros c. apply set_level_twice.
  - intros sp Hs. rewrite (press_stop_some self sp w Hs).
    cbn [fst snd levels trace]. split; [reflexivity|].
    intros c. apply set_level_twice.
  - unfold GarageDoor__init__, bind, ret; simpl.
    destruct (cfg_relay_stop config); reflexivity.
  - apply GarageDoor__init__idle.
  - apply TwoSwitchGarageDoor__init__idle.
  - apply run_commands_idle.
  - apply run_commands_idle, GarageDoor__init__idle.
Qed.

Lemma relay_pulse_returns_to_idle_witness :
  trace (snd (__press_stop
                (sample_door GarageDoorClass (Some 25) true false None [])
                (world0 [23; 24; 25])))
  = [Output 25 false; Sleep 200; Output 25 true] /\
  relays_idle
    (fst (run_commands
            (sample_door GarageDoorClass (Some 25) true false None [])
            [OPEN; STOP; CLOSE] (world0 [23; 24; 25])))
    (snd (run_commands
            (sample_door GarageDoorClass (Some 25) true false None [])
            [OPEN; STOP; CLOSE] (world0 [23; 24; 25]))).
Proof.
  destruct (relay_pulse_returns_to_idle
              (sample_door GarageDoorClass (Some 25) true false None [])
              (world0 [23; 24; 25]) (sample_config (Some 25) None true)
              (world0 []) [OPEN; STOP; CLOSE])
    as (_ & _ & _ & _ & _ & Hstop & _ & _ & _ & Hrun & _).
  split.
  - apply (Hstop 25 eq_refl).
  - apply Hrun. intros c Hc. simpl in Hc.
    destruct Hc as [<- | [<- | [<- | []]]]; reflexivity.
Defined.

(** ** [stop] *)

(** C6.  On a door without a stop relay ([relay_stop_pin] is [None]),
    [stop] returns, writes no channel and changes no level and nothing of
    the object; all it does is log ["STOP not setup"].  The same holds when
    it is reached through [execute_command] with ["STOP"]. *)
Theorem stop_without_relay_is_logged_noop
  (self : Door) (w : World) (Hnone : relay_stop_pin self = None) :
  stop self w =
    (self, mkWorld (levels w) (trace w ++ [LogInfo "STOP not setup"])) /\
  outputs (trace (snd (stop self w))) = outputs (trace w) /\
  inputs (trace (snd (stop self w))) = inputs (trace w) /\
  levels (snd (stop self w)) = levels w /\
  Main.execute_command self "STOP" w =
    (self,
     mkWorld (levels w)
       (trace w ++
        [LogInfo (String.append "Executing command STOP for door " (id self));
         LogInfo "STOP not setup"])).
Proof.
  assert (E : stop self w =
              (self, mkWorld (levels w)
                       (trace w ++ [LogInfo "STOP not setup"]))).
  { unfold stop, bind, ret. rewrite (press_stop_none self w Hnone).
    reflexivity. }
  rewrite E. cbn [fst snd levels trace].
  rewrite outputs_app, inputs_app. simpl. rewrite !app_nil_r.
  repeat split.
  unfold Main.execute_command, Main.door_name, bind, logging_info, emit.
  simpl. unfold stop, bind, ret.
  rewrite (press_stop_none self _ Hnone). simpl.
  rewrite <- app_assoc. reflexivity.
Qed.

Lemma stop_without_relay_is_logged_noop_witness :
  stop (sample_door GarageDoorClass None false true None []) (world0 [17]) =
  (sample_door GarageDoorClass None false true None [],
   mkWorld (high [17]) [LogInfo "STOP not setup"]).
Proof.
  exact (proj1 (stop_without_relay_is_logged_noop
                  (sample_door GarageDoorClass None false true None [])
                  (world0 [17]) eq_refl)).
Defined.

(** C10.  On a door with a stop relay, [stop] pulses that relay whatever
    [check_state_before_command] and the stored and sensed state are: what
    it appends to the trace is the pulse on the stop channel, the same for
    any two objects that agree on the stop channel and on [invert_relay],
    in any two worlds; it reads no channel and leaves the object as it
    was. *)
Theorem stop_is_never_gated
  (self : Door) (stop_pin : Z) (w : World)
  (Hsome : relay_stop_pin self = Some stop_pin) :
  let inv := invert_relay self in
  fst (stop self w) = self /\
  trace (snd (stop self w)) =
    trace w ++ [Output stop_pin (negb inv); Sleep SHORT_WAIT;
                Output stop_pin inv] /\
  outputs (trace (snd (stop self w))) =
    outputs (trace w) ++ [(stop_pin, negb inv); (stop_pin, inv)] /\
  inputs (trace (snd (stop self w))) = inputs (trace w) /\
  (forall (other : Door) (w' : World),
      relay_stop_pin other = Some stop_pin ->
      invert_relay other = inv ->
      trace (snd (stop other w')) =
        trace w' ++ [Output stop_pin (negb inv); Sleep SHORT_WAIT;
                     Output stop_pin inv]).
Proof.
  cbv zeta.
  assert (E : forall d w', relay_stop_pin d = Some stop_pin ->
              stop d w' =
              (d, mkWorld (set_level stop_pin (invert_relay d)
                             (set_level stop_pin (negb (invert_relay d))
                                (levels w')))
                          (trace w' ++ pulse stop_pin (invert_relay d)))).
  { intros d w' Hd. unfold stop, bind, ret.
    rewrite (press_stop_some d stop_pin w' Hd). reflexivity. }
  rewrite (E self w Hsome). cbn [fst snd levels trace].
  rewrite outputs_app, inputs_app. simpl. rewrite app_nil_r.
  repeat split.
  intros other w' Ho Hi. rewrite (E other w' Ho), Hi. reflexivity.
Qed.

Lemma stop_is_never_gated_witness :
  outputs (trace (snd (stop
     (sample_door (TwoSwitchGarageDoorClass 27) (Some 25) false true
        (Some "opening") [])
     (world0 [17; 27])))) = [(25, true); (25, false)] /\
  outputs (trace (snd (open
     (sample_door (TwoSwitchGarageDoorClass 27) (Some 25) false true
        (Some "opening") [])
     (world0 [17; 27])))) = [].
Proof.
  split; [|reflexivity].
  destruct (stop_is_never_gated
              (sample_door (TwoSwitchGarageDoorClass 27) (Some 25) false true
                 (Some "opening") [])
              25 (world0 [17; 27]) eq_refl) as (_ & _ & H & _).
  exact H.
Defined.

(** ** The command dispatcher *)

(** C9.  [execute_command] with a command that is none of ["OPEN"],
    ["CLOSE"] and ["STOP"] returns the door object as it was, having logged
    the command and then ["Invalid command: ..."]; it calls none of
    [open], [close] and [stop]: no channel is read or written, no level
    changes and no handler is called. *)
Theorem unrecognized_command_is_ignored
  (door : Door) (cmd : string) (w : World)
  (Hopen : cmd <> "OPEN") (Hclose : cmd <> "CLOSE") (Hstop : cmd <> "STOP") :
  let w' := snd (Main.execute_command door cmd w) in
  fst (Main.execute_command door cmd w) = door /\
  trace w' =
    trace w ++
    [LogInfo (String.append "Executing command "
                (String.append cmd (String.append " for door " (id door))));
     LogInfo (String.append "Invalid command: " cmd)] /\
  levels w' = levels w /\
  outputs (trace w') = outputs (trace w) /\
  inputs (trace w') = inputs (trace w) /\
  calls (trace w') = calls (trace w).
Proof.
  cbv zeta.
  apply String.eqb_neq in Hopen, Hclose, Hstop.
  unfold Main.execute_command, Main.door_name, bind, logging_info, emit, ret.
  rewrite Hopen, Hclose, Hstop. cbn [fst snd levels trace].
  rewrite <- app_assoc.
  rewrite outputs_app, inputs_app, calls_app. simpl. rewrite !app_nil_r.
  repeat split.
Qed.

Lemma unrecognized_command_is_ignored_witness :
  "open" <> "OPEN" /\
  fst (Main.execute_command
         (sample_door GarageDoorClass (Some 25) false false None [])
         "open" (world0 [17]))
  = sample_door GarageDoorClass (Some 25) false false None [] /\
  trace (snd (Main.execute_command
                (sample_door GarageDoorClass (Some 25) false false None [])
                "open" (world0 [17])))
  = [LogInfo "Executing command open for door left";
     LogInfo "Invalid command: open"].
Proof.
  split; [discriminate|].
  destruct (unrecognized_command_is_ignored
              (sample_door GarageDoorClass (Some 25) false false None [])
              "open" (world0 [17])
              ltac:(discriminate) ltac:(discriminate) ltac:(discriminate))
    as (Hdoor & Htrace & _).
  split; [exact Hdoor | exact Htrace].
Defined.

(** ** Change notification *)

Lemma fire_eq (hs : list handler) (v : pystate) :
  forall w : World,
    EventHook.fire hs v w =
    (tt, mkWorld (levels w) (trace w ++ map (fun h => HandlerCall h v) hs)).
Proof.
  induction hs as [|h hs IH]; intros w; simpl.
  - unfold ret. rewrite app_nil_r. destruct w; reflexivity.
  - unfold bind, emit. rewrite IH. simpl. rewrite <- app_assoc. reflexivity.
Qed.

Lemma calls_handler_calls (hs : list handler) (v : pystate) :
  calls (map (fun h => HandlerCall h v) hs) = notified hs v.
Proof. induction hs as [|h hs IH]; simpl; [|rewrite IH]; reflexivity. Qed.

Lemma state_value_indep (self : Door) (lv : Z -> bool) (tr tr' : list event) :
  fst (state self (mkWorld lv tr)) = fst (state self (mkWorld lv tr')).
Proof.
  destruct (class_of self) as [|p] eqn:E.
  - unfold state. rewrite E. unfold bind, ret.
    rewrite !GarageDoor_state_eq. reflexivity.
  - rewrite !(state_two_switch self p _ E). reflexivity.
Qed.

Lemma resolved_cons_gen (self : Door) (lv : Z -> bool)
      (obs : list (Z -> bool)) (w : World) :
  resolved self (lv :: obs) w =
  let r := state self (mkWorld lv (trace w)) in
  fst (fst r) :: resolved (snd (fst r)) obs (snd r).
Proof.
  unfold resolved. simpl. unfold bind, sense, ret.
  destruct (state self (mkWorld lv (trace w))) as [[v s1] w1]. simpl.
  destruct (resolve_all s1 obs w1) as [[vs s2] w2]. reflexivity.
Qed.

Lemma resolved_indep (obs : list (Z -> bool)) :
  forall (self : Door) (w w' : World),
    resolved self obs w = resolved self obs w'.
Proof.
  induction obs as [|lv obs IH]; intros self w w'; [reflexivity|].
  rewrite !resolved_cons_gen. cbv zeta.
  rewrite (state_value_indep self lv (trace w) (trace w')).
  f_equal. apply IH.
Qed.

Lemma resolved_length (obs : list (Z -> bool)) :
  forall (self : Door) (w : World),
    List.length (resolved self obs w) = List.length obs.
Proof.
  induction obs as [|lv obs IH]; intros self w; [reflexivity|].
  rewrite resolved_cons_gen. cbv zeta. simpl. rewrite IH. reflexivity.
Qed.

(** One settled edge: a sleep, the reads of [self.state], then one call of
    every handler with the value just resolved. *)
Lemma deliver_effect (self : Door) (r : Z * callback) (w : World) :
  In r (registrations self) ->
  exists (st : pystate) (tr : list event),
    deliver self r w =
      (set__state self st,
       mkWorld (levels w)
         (trace w ++ Sleep SHORT_WAIT :: tr ++
          map (fun h => HandlerCall h (fst (fst (state self w))))
              (onStateChange self))) /\
    snd (fst (state self w)) = set__state self st /\
    calls tr = [] /\ outputs tr = [].
Proof.
  intros Hin.
  assert (Hrun :
    exists (st : pystate) (tr : list event),
      (r0 <- (time_sleep SHORT_WAIT ;; state self) ;;
       (let (v, self') := r0 in
        EventHook.fire (onStateChange self) v ;; ret self')) w =
      (set__state self st,
       mkWorld (levels w)
         (trace w ++ Sleep SHORT_WAIT :: tr ++
          map (fun h => HandlerCall h (fst (fst (state self w))))
              (onStateChange self))) /\
      snd (fst (state self w)) = set__state self st /\
      calls tr = [] /\ outputs tr = []).
  { pose proof (state_value_indep self (levels w) (trace w)
                  (trace w ++ [Sleep SHORT_WAIT])) as Hind.
    destruct (state_effect self (mkWorld (levels w)
                                   (trace w ++ [Sleep SHORT_WAIT])))
      as (v & st & tr & E & Ho & Hc).
    exists st, tr.
    unfold bind, time_sleep, emit. rewrite E.
    replace (mkWorld (levels w) (trace w)) with w in Hind
      by (destruct w; reflexivity).
    rewrite Hind, E. cbn [fst snd levels trace].
    rewrite fire_eq. unfold ret. cbn [levels trace].
    rewrite <- !app_assoc. simpl. repeat split; assumption. }
  destruct Hrun as (st & tr & E & Es & Hc & Ho).
  exists st, tr. split; [|repeat split; assumption].
  rewrite <- E. clear E.
  unfold registrations in Hin. destruct Hin as [<- | Hin].
  - unfold deliver, GarageDoor__stateChanged. cbn [fst snd].
    rewrite Z.eqb_refl. unfold bind, time_sleep, emit.
    reflexivity.
  - destruct (class_of self) as [|p] eqn:Ecl; [destruct Hin|].
    destruct Hin as [<- | []].
    unfold deliver, TwoSwitchGarageDoor__stateChanged. cbn [fst snd].
    rewrite Ecl, Z.eqb_refl, orb_true_r. unfold bind, time_sleep, emit.
    reflexivity.
Qed.

Lemma count_occ_notified (hs : list handler) (vs : list pystate)
      (h : handler) :
  count_occ Nat.eq_dec (map fst (flat_map (notified hs) vs)) h =
  (List.length vs * count_occ Nat.eq_dec hs h)%nat.
Proof.
  induction vs as [|v vs IH]; [reflexivity|].
  cbn [flat_map List.length Nat.mul]. rewrite map_app, count_occ_app.
  apply f_equal2; [|exact IH].
  unfold notified. rewrite map_map. cbn [fst]. rewrite map_id.
  reflexivity.
Qed.

Lemma deliver_all_calls (es : list ((Z -> bool) * (Z * callback))) :
  forall (self : Door) (w : World),
    Forall (fun e => In (snd e) (registrations self)) es ->
    calls (trace (snd (deliver_all self es w))) =
    calls (trace w) ++
    flat_map (notified (onStateChange self)) (resolved self (map fst es) w).
Proof.
  induction es as [|e es IH]; intros self w Hreg.
  - simpl. rewrite app_nil_r. reflexivity.
  - inversion Hreg as [|e' es' He Hes]; subst.
    simpl deliver_all. unfold bind at 1. unfold sense at 1.
    unfold bind at 1.
    destruct (deliver_effect self (snd e) (mkWorld (fst e) (trace w)) He)
      as (st & tr & E & Es & Hc & _).
    rewrite E. rewrite IH by exact Hes.
    cbn [levels trace map].
    rewrite resolved_cons_gen. cbv zeta. rewrite Es.
    rewrite calls_app. simpl calls. rewrite calls_app, Hc.
    rewrite calls_handler_calls. simpl.
    rewrite <- app_assoc. f_equal. f_equal. f_equal.
    apply resolved_indep.
Qed.

(** C7.  Every settled edge delivered to a door object, on a channel and
    with the callback the object registered, calls every subscribed handler
    once, in the order of subscription, with the state resolved at that
    delivery; nothing compares it with the state delivered before.  After
    [N] deliveries the invocations are those of [N] notifications, one per
    resolved state, and each handler subscribed once has been invoked [N]
    times more, whether or not the states differ. *)
Theorem every_settled_edge_notifies_every_handler
  (self : Door) (es : list ((Z -> bool) * (Z * callback))) (w : World)
  (Hreg : Forall (fun e => In (snd e) (registrations self)) es) :
  let w' := snd (deliver_all self es w) in
  let values := resolved self (map fst es) w in
  List.length values = List.length es /\
  calls (trace w') =
    calls (trace w) ++ flat_map (notified (onStateChange self)) values /\
  (forall h,
      invocations h (trace w') =
      (invocations h (trace w) +
       List.length es * count_occ Nat.eq_dec (onStateChange self) h)%nat) /\
  (forall h,
      count_occ Nat.eq_dec (onStateChange self) h = 1%nat ->
      invocations h (trace w') =
      (invocations h (trace w) + List.length es)%nat) /\
  (forall (hs : list handler) (v : pystate) (w0 : World),
      calls (trace (snd (EventHook.fire hs v w0))) =
      calls (trace w0) ++ notified hs v) /\
  (forall h, onStateChange (add_handler self h) = onStateChange self ++ [h]).
Proof.
  cbv zeta.
  assert (Hlen : List.length (resolved self (map fst es) w) = List.length es).
  { rewrite resolved_length. apply length_map. }
  assert (Hinv : forall h,
      invocations h (trace (snd (deliver_all self es w))) =
      (invocations h (trace w) +
       List.length es * count_occ Nat.eq_dec (onStateChange self) h)%nat).
  { intros h. unfold invocations.
    rewrite (deliver_all_calls es self w Hreg).
    rewrite map_app, count_occ_app, count_occ_notified, Hlen. reflexivity. }
  refine (conj Hlen (conj (deliver_all_calls es self w Hreg)
            (conj Hinv (conj _ (conj _ _))))).
  - intros h H1. rewrite Hinv, H1. lia.
  - intros hs v w0. rewrite fire_eq. cbn [snd trace].
    rewrite calls_app, calls_handler_calls. reflexivity.
  - intros h. reflexivity.
Qed.

Lemma every_settled_edge_notifies_every_handler_witness :
  calls (trace (snd (deliver_all
     (sample_door GarageDoorClass None false true None [0%nat; 1%nat])
     [(high [17], (17, GarageDoor__stateChanged_cb));
      (high [17], (17, GarageDoor__stateChanged_cb));
      (high [17], (17, GarageDoor__stateChanged_cb))]
     (world0 [17]))))
  = [(0%nat, Some "open"); (1%nat, Some "open");
     (0%nat, Some "open"); (1%nat, Some "open");
     (0%nat, Some "open"); (1%nat, Some "open")] /\
  invocations 1%nat (trace (snd (deliver_all
     (sample_door GarageDoorClass None false true None [0%nat; 1%nat])
     [(high [17], (17, GarageDoor__stateChanged_cb));
      (high [17], (17, GarageDoor__stateChanged_cb));
      (high [17], (17, GarageDoor__stateChanged_cb))]
     (world0 [17]))))
  = 3%nat.
Proof.
  assert (Hreg : Forall
            (fun e : (Z -> bool) * (Z * callback) =>
               In (snd e)
                  (registrations
                     (sample_door GarageDoorClass None false true None
                        [0%nat; 1%nat])))
            [(high [17], (17, GarageDoor__stateChanged_cb));
             (high [17], (17, GarageDoor__stateChanged_cb));
             (high [17], (17, GarageDoor__stateChanged_cb))]).
  { repeat (constructor; [left; reflexivity|]). constructor. }
  destruct (every_settled_edge_notifies_every_handler
              (sample_door GarageDoorClass None false true None
                 [0%nat; 1%nat])
              [(high [17], (17, GarageDoor__stateChanged_cb));
               (high [17], (17, GarageDoor__stateChanged_cb));
               (high [17], (17, GarageDoor__stateChanged_cb))]
              (world0 [17]) Hreg)
    as (_ & Hcalls & _ & Honce & _).
  split.
  - exact Hcalls.
  - exact (Honce 1%nat eq_refl).
Defined.

(** ** What the constructors append to the trace *)

Lemma detections_app (a b : list event) :
  detections (a ++ b) = detections a ++ detections b.
Proof.
  induction a as [|e a IH]; [reflexivity|].
  destruct e; simpl; rewrite IH; reflexivity.
Qed.

Lemma bouncetimes_app (a b : list event) :
  bouncetimes (a ++ b) = bouncetimes a ++ bouncetimes b.
Proof.
  induction a as [|e a IH]; [reflexivity|].
  destruct e; simpl; rewrite IH; reflexivity.
Qed.

Lemma GarageDoor__init__eq (config : Config) (w0 : World) :
  exists (lv : Z -> bool) (tr : list event),
    GarageDoor__init__ config w0 =
    (mkDoor GarageDoorClass
        (cfg_relay_opening config) (cfg_relay_closing config)
        (cfg_relay_stop config) (cfg_state config) (cfg_id config)
        (mode_of_config (cfg_state_mode config))
        (py_bool (cfg_invert_relay config))
        (py_bool (cfg_check_state_before_command config))
        None [],
     mkWorld lv
       (trace w0 ++ tr ++
        [Setup (cfg_state config) IN None (Some PUD_UP);
         AddEventDetect (cfg_state config) BOTH
           GarageDoor__stateChanged_cb 300])) /\
    detections tr = [] /\ outputs tr = [] /\ inputs tr = [] /\
    calls tr = [].
Proof.
  set (inv := py_bool (cfg_invert_relay config)).
  exists (levels (snd (GarageDoor__init__ config w0))).
  exists ([SetWarnings false; SetModeBCM;
           Setup (cfg_relay_opening config) OUT (Some inv) None;
           Setup (cfg_relay_closing config) OUT (Some inv) None] ++
          match cfg_relay_stop config with
          | Some stop_pin => [Setup stop_pin OUT (Some inv) None]
          | None => []
          end).
  split.
  - unfold GarageDoor__init__, bind, ret, GPIO.setwarnings, GPIO.setmode_BCM,
      GPIO.setup, GPIO.add_event_detect, emit.
    cbn [relay_opening_pin relay_closing_pin relay_stop_pin state_pin
         invert_relay fst snd levels trace].
    destruct (cfg_relay_stop config) as [sp|];
      cbn [fst snd levels trace]; repeat rewrite <- app_assoc; reflexivity.
  - destruct (cfg_relay_stop config); repeat split.
Qed.

Lemma TwoSwitchGarageDoor__init__eq (config : Config) (w0 : World) :
  TwoSwitchGarageDoor__init__ config w0 =
  let built := GarageDoor__init__ config w0 in
  match cfg_open config with
  | None => (None, snd built)
  | Some open_pin =>
      (Some (mkDoor (TwoSwitchGarageDoorClass open_pin)
               (relay_opening_pin (fst built)) (relay_closing_pin (fst built))
               (relay_stop_pin (fst built)) (state_pin (fst built))
               (id (fst built)) (mode (fst built)) (invert_relay (fst built))
               (check_state_before_command (fst built))
               (_state (fst built)) (onStateChange (fst built))),
       mkWorld (levels (snd built))
         (trace (snd built) ++
          [Setup open_pin IN None (Some PUD_UP);
           AddEventDetect open_pin BOTH
             TwoSwitchGarageDoor__stateChanged_cb 300]))
  end.
Proof.
  cbv zeta. unfold TwoSwitchGarageDoor__init__. unfold bind at 1.
  destruct (GarageDoor__init__ config w0) as [parent w1]. cbn [fst snd].
  destruct (cfg_open config) as [op|]; [|reflexivity].
  unfold bind, ret, GPIO.setup, GPIO.add_event_detect, emit.
  cbn [fst snd levels trace]. rewrite <- app_assoc. reflexivity.
Qed.

(** ** Debounced edge handling *)

Lemma state_full (self : Door) (lv : Z -> bool) (tr : list event) :
  state self (mkWorld lv tr) =
  (fst (state self (mkWorld lv [])), mkWorld lv (tr ++ reads_of self lv)).
Proof.
  unfold reads_of. destruct (class_of self) as [|p] eqn:E.
  - unfold state. rewrite E. unfold bind, ret.
    rewrite !GarageDoor_state_eq. reflexivity.
  - rewrite !(state_two_switch self p _ E). reflexivity.
Qed.

Lemma deliver_trace (self : Door) (r : Z * callback) (lv : Z -> bool)
      (tr : list event) :
  In r (registrations self) ->
  deliver self r (mkWorld lv tr) =
  (snd (fst (state self (mkWorld lv []))),
   mkWorld lv
     (tr ++ Sleep SHORT_WAIT :: reads_of self lv ++
      map (fun h => HandlerCall h (fst (fst (state self (mkWorld lv [])))))
          (onStateChange self))).
Proof.
  intros Hin.
  assert (Hrun :
    (r0 <- (time_sleep SHORT_WAIT ;; state self) ;;
     (let (v, self') := r0 in
      EventHook.fire (onStateChange self) v ;; ret self')) (mkWorld lv tr) =
    (snd (fst (state self (mkWorld lv []))),
     mkWorld lv
       (tr ++ Sleep SHORT_WAIT :: reads_of self lv ++
        map (fun h => HandlerCall h (fst (fst (state self (mkWorld lv [])))))
            (onStateChange self)))).
  { unfold bind, time_sleep, emit. cbn [levels trace].
    rewrite state_full.
    destruct (fst (state self (mkWorld lv []))) as [v s1]. cbn [fst snd].
    rewrite fire_eq. unfold ret. cbn [levels trace].
    rewrite <- !app_assoc. reflexivity. }
  rewrite <- Hrun. clear Hrun.
  unfold registrations in Hin. destruct Hin as [<- | Hin].
  - unfold deliver, GarageDoor__stateChanged. cbn [fst snd].
    rewrite Z.eqb_refl. unfold bind, time_sleep, emit. reflexivity.
  - destruct (class_of self) as [|p] eqn:Ecl; [destruct Hin|].
    destruct Hin as [<- | []].
    unfold deliver, TwoSwitchGarageDoor__stateChanged. cbn [fst snd].
    rewrite Ecl, Z.eqb_refl, orb_true_r. unfold bind, time_sleep, emit.
    reflexivity.
Qed.

Lemma debounce_inside_window (W1 : Z) (window : Z -> option Z)
      (burst : list raw_edge) :
  Forall (fun e => exists t0, window (fst (on e)) = Some t0 /\
                              at_ms e < t0 + W1) burst ->
  debounce W1 window burst = [].
Proof.
  induction burst as [|e burst IH]; intros H; [reflexivity|].
  inversion H as [|e' burst' (t0 & Hw & Ht) Hrest]; subst.
  cbn [debounce]. rewrite Hw.
  apply Z.ltb_lt in Ht. rewrite Ht. apply IH, Hrest.
Qed.

(** C8.  Edge handling has two stages.  The constructor asks for edge
    detection with a bounce time of 300 ms; with the bounce suppression as
    the spec describes it, a first raw edge followed by any number of raw
    edges on the same channel inside its window gets exactly one callback
    through.  That callback sleeps [SHORT_WAIT] (200 ms), only then reads
    the channels, and calls every subscriber once with the state resolved
    from what it has just read: the levels at the end of the sleep, not
    those at the edge.  Two signals that agree at that moment give the same
    result. *)
Theorem debounced_burst_gives_one_settled_callback
  (self : Door) (config : Config) (w0 : World)
  (signal : Z -> Z -> bool) (first : raw_edge) (burst : list raw_edge)
  (w : World)
  (Hreg : In (on first) (registrations self))
  (Hburst : Forall (fun e => on e = on first /\
                             at_ms e < at_ms first + 300) burst) :
  let W1 := 300 in
  let read_at := at_ms first + W1 + SHORT_WAIT in
  let v := fst (fst (state self (mkWorld (signal read_at) []))) in
  let after := watch W1 signal self (first :: burst) w in
  bouncetimes (trace (snd (GarageDoor__init__ config w0))) =
    bouncetimes (trace w0) ++ [W1] /\
  SHORT_WAIT = 200 /\
  debounce W1 (fun _ => None) (first :: burst) = [first] /\
  trace (snd after) =
    trace w ++
    Sleep SHORT_WAIT :: reads_of self (signal read_at) ++
    map (fun h => HandlerCall h v) (onStateChange self) /\
  calls (trace (snd after)) =
    calls (trace w) ++ notified (onStateChange self) v /\
  (forall h,
      invocations h (trace (snd after)) =
      (invocations h (trace w) +
       count_occ Nat.eq_dec (onStateChange self) h)%nat) /\
  (class_of self = GarageDoorClass ->
   v = Some (if asserted self (state_pin self) (signal read_at)
             then "closed" else "open")) /\
  (forall signal' : Z -> Z -> bool,
      signal' read_at = signal read_at ->
      watch W1 signal' self (first :: burst) w = after).
Proof.
  cbv zeta.
  assert (Hdeb : debounce 300 (fun _ => None) (first :: burst) = [first]).
  { cbn [debounce]. f_equal. apply debounce_inside_window.
    apply Forall_forall. intros e He.
    rewrite Forall_forall in Hburst. destruct (Hburst e He) as [Hon Ht].
    exists (at_ms first). rewrite Hon, Z.eqb_refl. split; [reflexivity|].
    exact Ht. }
  assert (Hwatch : forall sg,
    watch 300 sg self (first :: burst) w =
    (snd (fst (state self
                 (mkWorld (sg (at_ms first + 300 + SHORT_WAIT)) []))),
     mkWorld (sg (at_ms first + 300 + SHORT_WAIT))
       (trace w ++
        Sleep SHORT_WAIT ::
        reads_of self (sg (at_ms first + 300 + SHORT_WAIT)) ++
        map (fun h =>
               HandlerCall h
                 (fst (fst (state self
                              (mkWorld (sg (at_ms first + 300 + SHORT_WAIT))
                                       [])))))
            (onStateChange self)))).
  { intros sg. unfold watch. rewrite Hdeb.
    cbn [map deliver_all settled invoked_at fst snd].
    unfold bind at 1. unfold sense at 1. unfold bind at 1.
    rewrite (deliver_trace self (on first) _ _ Hreg). reflexivity. }
  rewrite Hwatch. cbn [fst snd trace].
  assert (Hcalls :
    calls (trace w ++
           Sleep SHORT_WAIT ::
           reads_of self (signal (at_ms first + 300 + SHORT_WAIT)) ++
           map (fun h =>
                  HandlerCall h
                    (fst (fst (state self
                                 (mkWorld
                                    (signal (at_ms first + 300 + SHORT_WAIT))
                                    [])))))
               (onStateChange self)) =
    calls (trace w) ++
    notified (onStateChange self)
      (fst (fst (state self
                   (mkWorld (signal (at_ms first + 300 + SHORT_WAIT)) []))))).
  { rewrite calls_app. cbn [calls]. rewrite calls_app, calls_handler_calls.
    unfold reads_of. destruct (class_of self); reflexivity. }
  refine (conj _ (conj eq_refl (conj Hdeb (conj eq_refl (conj Hcalls
            (conj _ (conj _ _))))))).
  - destruct (GarageDoor__init__eq config w0)
      as (lv & tr & E & Hd & _).
    rewrite E. cbn [snd trace].
    rewrite !bouncetimes_app.
    assert (Hb : bouncetimes tr = []).
    { clear - Hd. induction tr as [|e tr IH]; [reflexivity|].
      destruct e; simpl in *; try (apply IH, Hd). discriminate. }
    rewrite Hb. reflexivity.
  - intros h. unfold invocations. rewrite Hcalls.
    rewrite map_app, count_occ_app. unfold notified.
    rewrite map_map. cbn [fst]. rewrite map_id. reflexivity.
  - intros Hcl. unfold state. rewrite Hcl. unfold bind, ret.
    rewrite GarageDoor_state_eq. reflexivity.
  - intros sg Hsg. rewrite Hwatch, Hsg. reflexivity.
Qed.

Lemma debounced_burst_gives_one_settled_callback_witness :
  calls (trace (snd (watch 300
     (fun t => if t <? 1400 then high [] else high [17])
     (sample_door GarageDoorClass None false true None [0%nat; 1%nat])
     [mkRawEdge 1000 (17, GarageDoor__stateChanged_cb);
      mkRawEdge 1040 (17, GarageDoor__stateChanged_cb);
      mkRawEdge 1299 (17, GarageDoor__stateChanged_cb)]
     (world0 []))))
  = [(0%nat, Some "open"); (1%nat, Some "open")].
Proof.
  assert (Hburst : Forall
            (fun e => on e = (17, GarageDoor__stateChanged_cb) /\
                      at_ms e < 1000 + 300)
            [mkRawEdge 1040 (17, GarageDoor__stateChanged_cb);
             mkRawEdge 1299 (17, GarageDoor__stateChanged_cb)]).
  { repeat constructor. }
  destruct (debounced_burst_gives_one_settled_callback
              (sample_door GarageDoorClass None false true None
                 [0%nat; 1%nat])
              (sample_config None None false) (world0 [])
              (fun t => if t <? 1400 then high [] else high [17])
              (mkRawEdge 1000 (17, GarageDoor__stateChanged_cb))
              [mkRawEdge 1040 (17, GarageDoor__stateChanged_cb);
               mkRawEdge 1299 (17, GarageDoor__stateChanged_cb)]
              (world0 []) (or_introl eq_refl) Hburst)
    as (_ & _ & _ & _ & Hcalls & _).
  exact Hcalls.
Defined.

(** * Further properties of the code *)

(** ** The constructors *)

(** X1.  [GarageDoor.__init__] asks for exactly one edge detection, on the
    state channel with the parent's callback, and
    [TwoSwitchGarageDoor.__init__] for exactly one more, on the open channel
    with its own callback, all with a bounce time of 300; these are the
    [registrations] of the object built.  The constructors write no channel,
    read none and call no handler, and the object starts with no stored
    state and no subscriber. *)
Theorem constructors_register_their_callbacks
  (config : Config) (open_pin : Z) (w0 : World)
  (Hopen : cfg_open config = Some open_pin) :
  let parent := GarageDoor__init__ config w0 in
  let child := TwoSwitchGarageDoor__init__ config w0 in
  (detections (trace (snd parent)) =
     detections (trace w0) ++ registrations (fst parent) /\
   bouncetimes (trace (snd parent)) = bouncetimes (trace w0) ++ [300] /\
   outputs (trace (snd parent)) = outputs (trace w0) /\
   inputs (trace (snd parent)) = inputs (trace w0) /\
   calls (trace (snd parent)) = calls (trace w0) /\
   class_of (fst parent) = GarageDoorClass /\
   _state (fst parent) = None /\ onStateChange (fst parent) = []) /\
  (exists d,
      fst child = Some d /\
      class_of d = TwoSwitchGarageDoorClass open_pin /\
      detections (trace (snd child)) =
        detections (trace w0) ++ registrations d /\
      registrations d =
        [(cfg_state config, GarageDoor__stateChanged_cb);
         (open_pin, TwoSwitchGarageDoor__stateChanged_cb)] /\
      bouncetimes (trace (snd child)) =
        bouncetimes (trace w0) ++ [300; 300] /\
      outputs (trace (snd child)) = outputs (trace w0) /\
      inputs (trace (snd child)) = inputs (trace w0) /\
      calls (trace (snd child)) = calls (trace w0) /\
      _state d = None /\ onStateChange d = []).
Proof.
  cbv zeta. rewrite TwoSwitchGarageDoor__init__eq. cbv zeta. rewrite Hopen.
  destruct (GarageDoor__init__eq config w0)
    as (lv & tr & E & Hd & Ho & Hi & Hc).
  rewrite E. cbn [fst snd levels trace].
  split.
  - rewrite !detections_app, !bouncetimes_app, !outputs_app, !inputs_app,
      !calls_app, Hd, Ho, Hi, Hc.
    assert (Hb : bouncetimes tr = []).
    { clear - Hd. induction tr as [|e tr IH]; [reflexivity|].
      destruct e; simpl in *; try (apply IH, Hd). discriminate. }
    rewrite Hb. simpl. rewrite !app_nil_r. repeat split.
  - eexists. split; [reflexivity|].
    repeat rewrite <- app_assoc.
    rewrite !detections_app, !bouncetimes_app, !outputs_app, !inputs_app,
      !calls_app, Hd, Ho, Hi, Hc.
    assert (Hb : bouncetimes tr = []).
    { clear - Hd. induction tr as [|e tr IH]; [reflexivity|].
      destruct e; simpl in *; try (apply IH, Hd). discriminate. }
    rewrite Hb. simpl. rewrite !app_nil_r. repeat split.
Qed.

Lemma constructors_register_their_callbacks_witness :
  detections
    (trace (snd (TwoSwitchGarageDoor__init__
                   (sample_config (Some 25) (Some 27) false) (world0 []))))
  = [(17, GarageDoor__stateChanged_cb);
     (27, TwoSwitchGarageDoor__stateChanged_cb)].
Proof.
  destruct (constructors_register_their_callbacks
              (sample_config (Some 25) (Some 27) false) 27 (world0 [])
              eq_refl) as (_ & d & _ & _ & Hdet & Hreg & _).
  rewrite Hdet, Hreg. reflexivity.
Defined.

(** X2.  [TwoSwitchGarageDoor.__init__] fails on [config['open']] exactly
    when the key is missing, and then only after the parent constructor
    has run: the world it leaves is the one [GarageDoor.__init__] leaves,
    edge detection on the state channel included.  The bootstrap loop never
    takes that path: it always gets an object, a [TwoSwitchGarageDoor]
    with the configured open channel when the key is present and a
    [GarageDoor] otherwise, with every relay channel at its idle level. *)
Theorem missing_open_key_fails_after_parent_setup
  (config : Config) (w0 : World) :
  (fst (TwoSwitchGarageDoor__init__ config w0) = None <->
   cfg_open config = None) /\
  (cfg_open config = None ->
   snd (TwoSwitchGarageDoor__init__ config w0) =
     snd (GarageDoor__init__ config w0) /\
   detections (trace (snd (TwoSwitchGarageDoor__init__ config w0))) =
     detections (trace w0) ++
     [(cfg_state config, GarageDoor__stateChanged_cb)]) /\
  (exists d,
      fst (Main.make_door config w0) = Some d /\
      class_of d =
        match cfg_open config with
        | Some open_pin => TwoSwitchGarageDoorClass open_pin
        | None => GarageDoorClass
        end /\
      state_pin d = cfg_state config /\
      relays_idle d (snd (Main.make_door config w0))).
Proof.
  pose proof (GarageDoor__init__idle config w0) as Hidle.
  pose proof (TwoSwitchGarageDoor__init__idle config w0) as Hidle2.
  pose proof (TwoSwitchGarageDoor__init__eq config w0) as Etwo.
  cbv zeta in Etwo.
  destruct (GarageDoor__init__eq config w0)
    as (lv & tr & E & Hd & _).
  unfold Main.make_door.
  destruct (cfg_open config) as [op|].
  - rewrite Etwo in *. rewrite E in *. cbn [fst snd levels trace] in *.
    split; [split; discriminate|]. split; [discriminate|].
    eexists. split; [reflexivity|]. split; [reflexivity|].
    split; [reflexivity|]. apply Hidle2. reflexivity.
  - rewrite Etwo. rewrite E in *. cbn [fst snd levels trace] in *.
    split; [split; reflexivity|]. split.
    + intros _. split; [reflexivity|].
      rewrite !detections_app, Hd. reflexivity.
    + unfold bind, ret. rewrite E. cbn [fst snd].
      eexists. split; [reflexivity|]. split; [reflexivity|].
      split; [reflexivity|]. exact Hidle.
Qed.

Lemma missing_open_key_fails_after_parent_setup_witness :
  fst (TwoSwitchGarageDoor__init__ (sample_config None None false)
         (world0 []))
  = None /\
  detections
    (trace (snd (TwoSwitchGarageDoor__init__ (sample_config None None false)
                   (world0 []))))
  = [(17, GarageDoor__stateChanged_cb)].
Proof.
  destruct (missing_open_key_fails_after_parent_setup
              (sample_config None None false) (world0 []))
    as (Hiff & Hfail & _).
  split.
  - apply Hiff. reflexivity.
  - exact (proj2 (Hfail eq_refl)).
Defined.

(** ** More on the resolver of the two-switch door *)

Lemma two_switch_value_idem (c o : bool) (prev : pystate) :
  two_switch_value c o (two_switch_value c o prev) = two_switch_value c o prev.
Proof.
  unfold two_switch_value.
  destruct c; [reflexivity|]. destruct o; [reflexivity|].
  destruct (py_eq prev "closed") eqn:E1; [reflexivity|].
  destruct (py_eq prev "open") eqn:E2; [reflexivity|].
  rewrite E1, E2. reflexivity.
Qed.

Lemma two_switch_value_quiet (prev : pystate) :
  prev <> Some "closed" -> prev <> Some "open" ->
  two_switch_value false false prev = prev.
Proof.
  intros H1 H2. apply py_eq_false in H1, H2.
  unfold two_switch_value. rewrite H1, H2. reflexivity.
Qed.

Lemma two_switch_value_known (c o : bool) (prev : pystate) :
  In prev two_switch_states -> In (two_switch_value c o prev) two_switch_states.
Proof.
  intros H. unfold two_switch_value.
  destruct c; [simpl; tauto|]. destruct o; [simpl; tauto|].
  destruct (py_eq prev "closed"); [simpl; tauto|].
  destruct (py_eq prev "open"); [simpl; tauto|]. exact H.
Qed.

Lemma two_switch_value_not_none (c o : bool) (prev : pystate) :
  prev <> None -> two_switch_value c o prev <> None.
Proof.
  intros H. unfold two_switch_value.
  destruct c; [discriminate|]. destruct o; [discriminate|].
  destruct (py_eq prev "closed"); [discriminate|].
  destruct (py_eq prev "open"); [discriminate|]. exact H.
Qed.

(** X3.  Reading [self.state] again while the levels are the same gives the
    same value and leaves the same object, for either class of door: the
    reads made by the initial publication, by a reconnect or by the check
    before a command do not move the stored state beyond what the first
    read at those levels stored. *)
Theorem state_reread_is_stable (self : Door) (w : World) (tr : list event) :
  fst (state (snd (fst (state self w))) (mkWorld (levels w) tr)) =
  fst (state self w).
Proof.
  destruct (class_of self) as [|p] eqn:E.
  - unfold state. rewrite E. unfold bind, ret.
    rewrite GarageDoor_state_eq. cbn [fst snd]. rewrite E.
    rewrite GarageDoor_state_eq. reflexivity.
  - rewrite (state_two_switch self p w E). cbv zeta. cbn [fst snd].
    set (v := two_switch_value (asserted self (state_pin self) (levels w))
                (asserted self p (levels w)) (_state self)).
    rewrite (state_two_switch (set__state self v) p _ E).
    cbv zeta. cbn [fst snd levels].
    change (asserted (set__state self v)) with (asserted self).
    cbn [_state set__state state_pin]. unfold v.
    rewrite two_switch_value_idem. reflexivity.
Qed.

Lemma resolved_quiet_unknown (obs : list (Z -> bool)) :
  forall (self : Door) (p : Z) (w : World),
    class_of self = TwoSwitchGarageDoorClass p ->
    _state self <> Some "closed" -> _state self <> Some "open" ->
    Forall (fun lv => asserted self (state_pin self) lv = false /\
                      asserted self p lv = false) obs ->
    resolved self obs w = repeat (_state self) (List.length obs).
Proof.
  induction obs as [|lv obs IH]; intros self p w Hc H1 H2 Hq; [reflexivity|].
  inversion Hq as [|lv' obs' [Hcl Hop] Hq']; subst.
  destruct (resolved_cons self p lv obs w Hc) as [w1 E].
  rewrite E. cbv zeta. rewrite Hcl, Hop.
  rewrite (two_switch_value_quiet _ H1 H2). rewrite set__state_same.
  simpl. f_equal. apply (IH self p w1 Hc H1 H2 Hq').
Qed.

(** X4.  A two-switch door whose stored state is neither ['closed'] nor
    ['open'] (a new object stores [None]) resolves to that stored value at
    every evaluation for as long as neither switch is asserted: started
    with the door between its switches, it reports [None] until one of
    them is reached. *)
Theorem unknown_state_persists_while_quiet
  (self : Door) (p : Z) (obs : list (Z -> bool)) (w : World)
  (Hclass : class_of self = TwoSwitchGarageDoorClass p)
  (Hnot_closed : _state self <> Some "closed")
  (Hnot_open : _state self <> Some "open")
  (Hquiet : Forall (fun lv => asserted self (state_pin self) lv = false /\
                              asserted self p lv = false) obs) :
  resolved self obs w = repeat (_state self) (List.length obs) /\
  (_state self = None -> Forall (fun v => v = None) (resolved self obs w)).
Proof.
  pose proof (resolved_quiet_unknown obs self p w Hclass Hnot_closed
                Hnot_open Hquiet) as E.
  split; [exact E|].
  intros Hn. rewrite E, Hn. apply Forall_forall.
  intros v Hv. apply repeat_spec in Hv. exact Hv.
Qed.

Lemma unknown_state_persists_while_quiet_witness :
  resolved (sample_door (TwoSwitchGarageDoorClass 27) None false true None [])
    [high [17; 27]; high [17; 27]] (world0 [])
  = [None; None].
Proof.
  refine (proj1 (unknown_state_persists_while_quiet
                   (sample_door (TwoSwitchGarageDoorClass 27) None false true
                      None [])
                   27 [high [17; 27]; high [17; 27]] (world0 [])
                   eq_refl _ _ _)).
  - discriminate.
  - discriminate.
  - repeat constructor.
Defined.

Lemma resolved_known (obs : list (Z -> bool)) :
  forall (self : Door) (p : Z) (w : World),
    class_of self = TwoSwitchGarageDoorClass p ->
    In (_state self) two_switch_states ->
    Forall (fun v => In v two_switch_states) (resolved self obs w).
Proof.
  induction obs as [|lv obs IH]; intros self p w Hc Hin; [constructor|].
  destruct (resolved_cons self p lv obs w Hc) as [w1 E].
  rewrite E. cbv zeta. constructor.
  - apply two_switch_value_known, Hin.
  - apply (IH (set__state self
                 (two_switch_value (asserted self (state_pin self) lv)
                    (asserted self p lv) (_state self))) p w1 Hc).
    cbn [_state set__state].
    apply two_switch_value_known, Hin.
Qed.

Lemma resolved_never_none_again (self : Door) (p : Z)
      (obs : list (Z -> bool)) (w : World) (i : nat) (a : pystate) :
  class_of self = TwoSwitchGarageDoorClass p ->
  nth_error (resolved self obs w) i = Some a -> a <> None ->
  forall d v, nth_error (resolved self obs w) (i + d) = Some v -> v <> None.
Proof.
  intros Hc Ha Hne d. induction d as [|d IH]; intros v Hv.
  - replace (i + 0)%nat with i in Hv by lia. congruence.
  - replace (i + S d)%nat with (S (i + d)) in Hv by lia.
    assert (Hlt : (S (i + d) < List.length obs)%nat).
    { rewrite <- (resolved_length obs self w).
      apply nth_error_Some. congruence. }
    destruct (nth_error (resolved self obs w) (i + d)) as [u|] eqn:Eu.
    2:{ apply nth_error_None in Eu. rewrite resolved_length in Eu. lia. }
    destruct (nth_error obs (S (i + d))) as [lv|] eqn:Elv.
    2:{ apply nth_error_None in Elv. lia. }
    rewrite (resolved_step obs self p w (i + d) u lv Hc Eu Elv) in Hv.
    injection Hv as <-.
    apply two_switch_value_not_none. apply IH. reflexivity.
Qed.

(** X5.  Starting from a stored state that is [None] or one of the four
    state names, every value a two-switch door resolves is again [None] or
    one of ['closed'], ['open'], ['opening'], ['closing']; and once an
    evaluation has given a name, no later evaluation gives [None]. *)
Theorem two_switch_values_stay_known
  (self : Door) (p : Z) (obs : list (Z -> bool)) (w : World)
  (Hclass : class_of self = TwoSwitchGarageDoorClass p)
  (Hstored : In (_state self) two_switch_states) :
  Forall (fun v => In v two_switch_states) (resolved self obs w) /\
  (forall i j a v,
      (i <= j)%nat ->
      nth_error (resolved self obs w) i = Some a -> a <> None ->
      nth_error (resolved self obs w) j = Some v -> v <> None).
Proof.
  split.
  - apply (resolved_known obs self p w Hclass Hstored).
  - intros i j a v Hij Ha Hne Hv.
    replace j with (i + (j - i))%nat in Hv by lia.
    apply (resolved_never_none_again self p obs w i a Hclass Ha Hne
             (j - i)%nat v Hv).
Qed.

Lemma two_switch_values_stay_known_witness :
  Forall (fun v => In v two_switch_states)
    (resolved
       (sample_door (TwoSwitchGarageDoorClass 27) None false true None [])
       [high [17; 27]; high [27]; high [17; 27]; high [17]] (world0 [])).
Proof.
  refine (proj1 (two_switch_values_stay_known
                   (sample_door (TwoSwitchGarageDoorClass 27) None false true
                      None [])
                   27 [high [17; 27]; high [27]; high [17; 27]; high [17]]
                   (world0 []) eq_refl _)).
  left. reflexivity.
Defined.

(** X6.  A two-switch door resolves to ['opening'] only with neither switch
    asserted and only right after ['closed'] or ['opening'], and to
    ['closing'] only right after ['open'] or ['closing']: between two
    consecutive evaluations the direction of travel never flips without a
    switch being reached. *)
Theorem transient_follows_its_own_side
  (self : Door) (p : Z) (obs : list (Z -> bool)) (w : World) (i : nat)
  (a : pystate) (lv : Z -> bool)
  (Hclass : class_of self = TwoSwitchGarageDoorClass p)
  (Hprev : nth_error (resolved self obs w) i = Some a)
  (Hlv : nth_error obs (S i) = Some lv) :
  (nth_error (resolved self obs w) (S i) = Some (Some "opening") ->
   (a = Some "closed" \/ a = Some "opening") /\
   asserted self (state_pin self) lv = false /\ asserted self p lv = false) /\
  (nth_error (resolved self obs w) (S i) = Some (Some "closing") ->
   (a = Some "open" \/ a = Some "closing") /\
   asserted self (state_pin self) lv = false /\ asserted self p lv = false).
Proof.
  rewrite (resolved_step obs self p w i a lv Hclass Hprev Hlv).
  unfold two_switch_value.
  destruct (asserted self (state_pin self) lv);
    [split; intros H; discriminate|].
  destruct (asserted self p lv); [split; intros H; discriminate|].
  destruct (py_eq a "closed") eqn:E1.
  - apply py_eq_true in E1. split; intros H; [tauto | discriminate].
  - destruct (py_eq a "open") eqn:E2.
    + apply py_eq_true in E2. split; intros H; [discriminate | tauto].
    + split; intros H; injection H as ->; tauto.
Qed.

Lemma transient_follows_its_own_side_witness :
  nth_error
    (resolved
       (sample_door (TwoSwitchGarageDoorClass 27) None false true None [])
       [high [27]; high [17; 27]; high [17]] (world0 []))
    1
  = Some (Some "opening") /\
  asserted (sample_door (TwoSwitchGarageDoorClass 27) None false true None [])
    17 (high [17; 27]) = false /\
  asserted (sample_door (TwoSwitchGarageDoorClass 27) None false true None [])
    27 (high [17; 27]) = false.
Proof.
  destruct (transient_follows_its_own_side
              (sample_door (TwoSwitchGarageDoorClass 27) None false true
                 None [])
              27 [high [27]; high [17; 27]; high [17]] (world0 [])
              0%nat (Some "closed") (high [17; 27])
              eq_refl eq_refl eq_refl) as (Hopening & _).
  split; [reflexivity|].
  exact (proj2 (Hopening eq_refl)).
Defined.

(** ** Commands *)

Lemma two_switch_value_quiet_transient (prev : pystate) :
  two_switch_value false false prev <> Some "closed" /\
  two_switch_value false false prev <> Some "open".
Proof.
  unfold two_switch_value.
  destruct (py_eq prev "closed") eqn:E1; [split; discriminate|].
  destruct (py_eq prev "open") eqn:E2; [split; discriminate|].
  apply py_eq_false in E1, E2. split; assumption.
Qed.

(** X7.  On a two-switch door with [check_state_before_command] on, while
    neither switch is asserted both [open] and [close] are dropped, whatever
    state is stored; [stop], when a stop relay is configured, still pulses
    it.  With the door between its switches only [stop] reaches a relay. *)
Theorem two_switch_between_switches_only_stop_acts
  (self : Door) (p : Z) (w : World)
  (Hclass : class_of self = TwoSwitchGarageDoorClass p)
  (Hcheck : check_state_before_command self = true)
  (Hclosed : asserted self (state_pin self) (levels w) = false)
  (Hopen : asserted self p (levels w) = false) :
  outputs (trace (snd (open self w))) = outputs (trace w) /\
  outputs (trace (snd (close self w))) = outputs (trace w) /\
  (forall stop_pin,
      relay_stop_pin self = Some stop_pin ->
      outputs (trace (snd (stop self w))) =
      outputs (trace w) ++ [(stop_pin, negb (invert_relay self));
                            (stop_pin, invert_relay self)]).
Proof.
  assert (Hv : fst (fst (state self w)) =
               two_switch_value false false (_state self)).
  { rewrite (state_two_switch self p w Hclass). cbv zeta. cbn [fst].
    rewrite Hclosed, Hopen. reflexivity. }
  destruct (two_switch_value_quiet_transient (_state self)) as [H1 H2].
  rewrite <- Hv in H1, H2.
  split; [apply (open_dropped self w Hcheck H1)|].
  split; [apply (close_dropped self w Hcheck H2)|].
  intros sp Hs. unfold stop, bind, ret.
  rewrite (press_stop_some self sp w Hs). cbn [fst snd trace].
  rewrite outputs_app. reflexivity.
Qed.

Lemma two_switch_between_switches_only_stop_acts_witness :
  outputs (trace (snd (close
     (sample_door (TwoSwitchGarageDoorClass 27) (Some 25) false true
        (Some "open") [])
     (world0 [17; 27])))) = [] /\
  outputs (trace (snd (stop
     (sample_door (TwoSwitchGarageDoorClass 27) (Some 25) false true
        (Some "open") [])
     (world0 [17; 27])))) = [(25, true); (25, false)].
Proof.
  destruct (two_switch_between_switches_only_stop_acts
              (sample_door (TwoSwitchGarageDoorClass 27) (Some 25) false true
                 (Some "open") [])
              27 (world0 [17; 27]) eq_refl eq_refl eq_refl eq_refl)
    as (_ & Hclose & Hstop).
  split; [exact Hclose | exact (Hstop 25 eq_refl)].
Defined.

(** X8.  A single-sensor door with [check_state_before_command] on accepts
    exactly one of the two commands at any reading: with the switch
    asserted [open] pulses and [close] is dropped, otherwise [close] pulses
    and [open] is dropped. *)
Theorem single_sensor_accepts_exactly_one_command
  (self : Door) (w : World)
  (Hclass : class_of self = GarageDoorClass)
  (Hcheck : check_state_before_command self = true) :
  let inv := invert_relay self in
  (asserted self (state_pin self) (levels w) = true ->
   outputs (trace (snd (open self w))) =
     outputs (trace w) ++ [(relay_opening_pin self, negb inv);
                           (relay_opening_pin self, inv)] /\
   outputs (trace (snd (close self w))) = outputs (trace w)) /\
  (asserted self (state_pin self) (levels w) = false ->
   outputs (trace (snd (close self w))) =
     outputs (trace w) ++ [(relay_closing_pin self, negb inv);
                           (relay_closing_pin self, inv)] /\
   outputs (trace (snd (open self w))) = outputs (trace w)).
Proof.
  cbv zeta.
  assert (Hv : fst (fst (state self w)) =
               Some (if asserted self (state_pin self) (levels w)
                     then "closed" else "open")).
  { unfold state. rewrite Hclass. unfold bind, ret.
    rewrite GarageDoor_state_eq. reflexivity. }
  split; intros Ha; rewrite Ha in Hv.
  - split; [apply (open_pulsed self w Hcheck Hv)|].
    apply (close_dropped self w Hcheck). rewrite Hv. discriminate.
  - split; [apply (close_pulsed self w Hcheck Hv)|].
    apply (open_dropped self w Hcheck). rewrite Hv. discriminate.
Qed.

Lemma single_sensor_accepts_exactly_one_command_witness :
  outputs (trace (snd (close
     (sample_door GarageDoorClass None false true None [])
     (world0 [17])))) = [(24, true); (24, false)] /\
  outputs (trace (snd (open
     (sample_door GarageDoorClass None false true None [])
     (world0 [17])))) = [].
Proof.
  destruct (single_sensor_accepts_exactly_one_command
              (sample_door GarageDoorClass None false true None [])
              (world0 [17]) eq_refl eq_refl) as (_ & H).
  exact (H eq_refl).
Defined.

(** X9.  With [check_state_before_command] off, [open] and [close] do not
    evaluate [self.state]: they read no channel and leave the object as it
    was.  With the flag on they evaluate it once, and the object they leave
    is the one that evaluation leaves, also when the command is dropped: a
    two-switch door that stored ['closed'] and is asked to open or close
    with neither switch asserted stores ['opening'] afterwards. *)
Theorem precondition_check_reads_and_stores
  (self : Door) (p : Z) (w : World) :
  (check_state_before_command self = false ->
   fst (open self w) = self /\ fst (close self w) = self /\
   inputs (trace (snd (open self w))) = inputs (trace w) /\
   inputs (trace (snd (close self w))) = inputs (trace w)) /\
  (check_state_before_command self = true ->
   fst (open self w) = snd (fst (state self w)) /\
   fst (close self w) = snd (fst (state self w)) /\
   inputs (trace (snd (open self w))) = inputs (trace (snd (state self w))) /\
   inputs (trace (snd (close self w))) =
     inputs (trace (snd (state self w)))) /\
  (check_state_before_command self = true ->
   class_of self = TwoSwitchGarageDoorClass p ->
   asserted self (state_pin self) (levels w) = false ->
   asserted self p (levels w) = false ->
   _state self = Some "closed" ->
   _state (fst (open self w)) = Some "opening" /\
   _state (fst (close self w)) = Some "opening" /\
   outputs (trace (snd (open self w))) = outputs (trace w)).
Proof.
  refine (conj _ (conj _ _)).
  - intros Hc. rewrite (open_unchecked self w Hc), (close_unchecked self w Hc).
    rewrite press_open_eq, press_close_eq. cbn [fst snd trace].
    rewrite !inputs_app. simpl. rewrite app_nil_r. repeat split.
  - intros Hc. rewrite (open_checked self w Hc), (close_checked self w Hc).
    cbv zeta.
    destruct (state self w) as [[v s1] w1]. cbn [fst snd].
    destruct (py_eq v "closed"), (py_eq v "open"); cbn [fst snd];
      rewrite ?press_open_eq, ?press_close_eq; cbn [fst snd trace];
      rewrite ?inputs_app; simpl; rewrite ?app_nil_r; repeat split.
  - intros Hc Hcl Ha Ho Hs.
    rewrite (open_checked self w Hc), (close_checked self w Hc). cbv zeta.
    rewrite (state_two_switch self p w Hcl). cbv zeta. cbn [fst snd].
    rewrite Ha, Ho, Hs. cbn. rewrite outputs_app. simpl.
    rewrite app_nil_r. repeat split.
Qed.

Lemma precondition_check_reads_and_stores_witness :
  _state (fst (open
     (sample_door (TwoSwitchGarageDoorClass 27) None false true
        (Some "closed") [])
     (world0 [17; 27]))) = Some "opening" /\
  inputs (trace (snd (open
     (sample_door (TwoSwitchGarageDoorClass 27) None false false
        (Some "closed") [])
     (world0 [17; 27])))) = [].
Proof.
  split.
  - destruct (precondition_check_reads_and_stores
                (sample_door (TwoSwitchGarageDoorClass 27) None false true
                   (Some "closed") [])
                27 (world0 [17; 27])) as (_ & _ & H).
    exact (proj1 (H eq_refl eq_refl eq_refl eq_refl eq_refl)).
  - destruct (precondition_check_reads_and_stores
                (sample_door (TwoSwitchGarageDoorClass 27) None false false
                   (Some "closed") [])
                27 (world0 [17; 27])) as (H & _).
    exact (proj1 (proj2 (proj2 (H eq_refl)))).
Defined.

(** What one command does to the object, the trace and the levels: at most
    the stored state changes, no handler is called, and at most one relay
    channel is written, ending at [invert_relay]. *)
Lemma run_command_effect (self : Door) (c : command) (w : World) :
  exists (st : pystate) (tr : list event) (pin : option Z),
    fst (run_command self c w) = set__state self st /\
    trace (snd (run_command self c w)) = trace w ++ tr /\
    calls tr = [] /\
    (forall x, levels (snd (run_command self c w)) x =
               match pin with
               | Some q => if x =? q then invert_relay self else levels w x
               | None => levels w x
               end) /\
    (forall q, pin = Some q -> In q (relay_pins self)).
Proof.
  destruct (state_effect self w) as (v & st & tr & E & _ & Hcalls).
  destruct c; cbn [run_command].
  - destruct (check_state_before_command self) eqn:Hc.
    + rewrite (open_checked self w Hc), E. cbv zeta. cbn [fst snd].
      destruct (py_eq v "closed").
      * rewrite press_open_eq. cbn [fst snd levels trace].
        exists st, (tr ++ pulse (relay_opening_pin self) (invert_relay self)),
               (Some (relay_opening_pin self)).
        rewrite calls_app, Hcalls, app_assoc.
        repeat split; try reflexivity.
        -- intros x. apply set_level_twice.
        -- intros q Hq. injection Hq as <-. left. reflexivity.
      * exists st, tr, None. repeat split; try assumption. discriminate.
    + rewrite (open_unchecked self w Hc), press_open_eq.
      cbn [fst snd levels trace].
      exists (_state self), (pulse (relay_opening_pin self) (invert_relay self)),
             (Some (relay_opening_pin self)).
      rewrite set__state_same. repeat split.
      * intros x. apply set_level_twice.
      * intros q Hq. injection Hq as <-. left. reflexivity.
  - destruct (check_state_before_command self) eqn:Hc.
    + rewrite (close_checked self w Hc), E. cbv zeta. cbn [fst snd].
      destruct (py_eq v "open").
      * rewrite press_close_eq. cbn [fst snd levels trace].
        exists st, (tr ++ pulse (relay_closing_pin self) (invert_relay self)),
               (Some (relay_closing_pin self)).
        rewrite calls_app, Hcalls, app_assoc.
        repeat split; try reflexivity.
        -- intros x. apply set_level_twice.
        -- intros q Hq. injection Hq as <-. right. left. reflexivity.
      * exists st, tr, None. repeat split; try assumption. discriminate.
    + rewrite (close_unchecked self w Hc), press_close_eq.
      cbn [fst snd levels trace].
      exists (_state self), (pulse (relay_closing_pin self) (invert_relay self)),
             (Some (relay_closing_pin self)).
      rewrite set__state_same. repeat split.
      * intros x. apply set_level_twice.
      * intros q Hq. injection Hq as <-. right. left. reflexivity.
  - unfold stop, bind, ret.
    destruct (relay_stop_pin self) as [sp|] eqn:Es.
    + rewrite (press_stop_some self sp w Es). cbn [fst snd levels trace].
      exists (_state self), (pulse sp (invert_relay self)), (Some sp).
      rewrite set__state_same. repeat split.
      * intros x. apply set_level_twice.
      * intros q Hq. injection Hq as <-. unfold relay_pins. rewrite Es.
        right. right. left. reflexivity.
    + rewrite (press_stop_none self w Es). cbn [fst snd levels trace].
      exists (_state self), [LogInfo "STOP not setup"], None.
      rewrite set__state_same. repeat split. discriminate.
Qed.

Lemma run_commands_effect (cs : list command) :
  forall (self : Door) (w : World),
    (exists st, fst (run_commands self cs w) = set__state self st) /\
    calls (trace (snd (run_commands self cs w))) = calls (trace w) /\
    (forall x, ~ In x (relay_pins self) ->
               levels (snd (run_commands self cs w)) x = levels w x) /\
    (relays_idle self w ->
     forall x, levels (snd (run_commands self cs w)) x = levels w x).
Proof.
  induction cs as [|c cs IH]; intros self w.
  - cbn [run_commands]. unfold ret. cbn [fst snd].
    split; [exists (_state self); symmetry; apply set__state_same|].
    repeat split.
  - cbn [run_commands]. unfold bind.
    destruct (run_command_effect self c w)
      as (st & tr & pin & E1 & E2 & Hc & Hlv & Hpin).
    destruct (run_command self c w) as [self1 w1]. cbn [fst snd] in *.
    subst self1.
    destruct (IH (set__state self st) w1) as ((st' & F1) & F2 & F3 & F4).
    split; [exists st'; rewrite F1; reflexivity|].
    split; [rewrite F2, E2, calls_app, Hc, app_nil_r; reflexivity|].
    split.
    + intros x Hx. rewrite (F3 x Hx), Hlv.
      destruct pin as [q|]; [|reflexivity].
      destruct (x =? q) eqn:Exq; [|reflexivity].
      apply Z.eqb_eq in Exq. subst x. elim Hx. apply Hpin. reflexivity.
    + intros Hidle x.
      assert (Hsame : forall y, levels w1 y = levels w y).
      { intros y. rewrite Hlv. destruct pin as [q|]; [|reflexivity].
        destruct (y =? q) eqn:Eyq; [|reflexivity].
        apply Z.eqb_eq in Eyq. subst y. symmetry.
        apply Hidle, Hpin. reflexivity. }
      rewrite F4; [apply Hsame|].
      apply relays_idle_set__state. intros y Hy.
      rewrite Hsame. apply Hidle, Hy.
Qed.

(** X10.  Commands touch nothing but relay channels: after any sequence of
    [open], [close] and [stop] calls every channel that is not a relay
    channel of the door has the level it had, and, when the relay channels
    were idle before, so has every channel.  The object keeps all its
    attributes except possibly the stored state, and no handler is called:
    a command by itself never notifies a subscriber. *)
Theorem commands_leave_the_levels_as_they_were
  (self : Door) (cs : list command) (w : World) :
  let after := run_commands self cs w in
  (exists st, fst after = set__state self st) /\
  calls (trace (snd after)) = calls (trace w) /\
  (forall x, ~ In x (relay_pins self) -> levels (snd after) x = levels w x) /\
  (relays_idle self w -> forall x, levels (snd after) x = levels w x).
Proof. cbv zeta. apply run_commands_effect. Qed.

Lemma commands_leave_the_levels_as_they_were_witness :
  relays_idle (sample_door GarageDoorClass (Some 25) false false None [])
              (world0 [17]) /\
  levels (snd (run_commands
                 (sample_door GarageDoorClass (Some 25) false false None [])
                 [OPEN; CLOSE; STOP; OPEN] (world0 [17]))) 23
  = levels (world0 [17]) 23.
Proof.
  assert (Hidle : relays_idle
                    (sample_door GarageDoorClass (Some 25) false false None [])
                    (world0 [17])).
  { intros c Hc. simpl in Hc.
    destruct Hc as [<- | [<- | [<- | []]]]; reflexivity. }
  split; [exact Hidle|].
  destruct (commands_leave_the_levels_as_they_were
              (sample_door GarageDoorClass (Some 25) false false None [])
              [OPEN; CLOSE; STOP; OPEN] (world0 [17])) as (_ & _ & _ & H).
  exact (H Hidle 23).
Defined.

(** X11.  Whatever string [execute_command] is given, it first logs the
    command under the door's [id] (the object has no [name]), calls no
    handler, leaves every attribute of the object but the stored state, and
    leaves every channel at its level when the relays were idle. *)
Theorem execute_command_logs_and_never_notifies
  (door : Door) (cmd : string) (w : World) :
  let after := Main.execute_command door cmd w in
  (exists tr,
      trace (snd after) =
      trace w ++
      LogInfo (String.append "Executing command "
                 (String.append cmd (String.append " for door " (id door))))
      :: tr) /\
  calls (trace (snd after)) = calls (trace w) /\
  (exists st, fst after = set__state door st) /\
  (relays_idle door w -> forall x, levels (snd after) x = levels w x).
Proof.
  cbv zeta.
  unfold Main.execute_command, Main.door_name, bind, logging_info, emit.
  set (msg := LogInfo (String.append "Executing command "
                         (String.append cmd
                            (String.append " for door " (id door))))).
  set (w0 := mkWorld (levels w) (trace w ++ [msg])).
  assert (Hcmd : forall c,
    (exists tr, trace (snd (run_command door c w0)) = trace w ++ msg :: tr) /\
    calls (trace (snd (run_command door c w0))) = calls (trace w) /\
    (exists st, fst (run_command door c w0) = set__state door st) /\
    (relays_idle door w ->
     forall x, levels (snd (run_command door c w0)) x = levels w x)).
  { intros c.
    destruct (run_command_effect door c w0)
      as (st & tr & pin & E1 & E2 & Hc & Hlv & Hpin).
    split; [exists tr; rewrite E2; unfold w0; cbn [trace];
            rewrite <- app_assoc; reflexivity|].
    split; [rewrite E2, calls_app, Hc; unfold w0; cbn [trace];
            rewrite calls_app; simpl; rewrite !app_nil_r; reflexivity|].
    split; [exists st; exact E1|].
    intros Hidle x. rewrite Hlv. unfold w0. cbn [levels].
    destruct pin as [q|]; [|reflexivity].
    destruct (x =? q) eqn:Exq; [|reflexivity].
    apply Z.eqb_eq in Exq. subst x. symmetry. apply Hidle, Hpin. reflexivity. }
  destruct (String.eqb cmd "OPEN"); [exact (Hcmd OPEN)|].
  destruct (String.eqb cmd "CLOSE"); [exact (Hcmd CLOSE)|].
  destruct (String.eqb cmd "STOP"); [exact (Hcmd STOP)|].
  unfold ret. cbn [fst snd levels trace]. unfold w0. cbn [trace].
  split; [eexists; rewrite <- app_assoc; reflexivity|].
  split; [rewrite !calls_app; simpl; rewrite !app_nil_r; reflexivity|].
  split; [exists (_state door); symmetry; apply set__state_same|].
  intros _ x. reflexivity.
Qed.

Lemma execute_command_logs_and_never_notifies_witness :
  levels (snd (Main.execute_command
                 (sample_door GarageDoorClass (Some 25) false false None
                    [0%nat])
                 "OPEN" (world0 [17]))) 23
  = levels (world0 [17]) 23.
Proof.
  destruct (execute_command_logs_and_never_notifies
              (sample_door GarageDoorClass (Some 25) false false None [0%nat])
              "OPEN" (world0 [17])) as (_ & _ & _ & H).
  apply H. intros c Hc. simpl in Hc.
  destruct Hc as [<- | [<- | [<- | []]]]; reflexivity.
Defined.

(** ** Edge callbacks *)

(** X12.  On a two-switch door an edge on the closed switch, which runs
    the parent's [__stateChanged], and an edge on the open switch, which
    runs the subclass's, do exactly the same: both sleep, evaluate the
    two-switch [state] and fire.  A callback called with a channel that is
    not its own returns at once, without sleeping, reading or firing; the
    parent's callback alone would ignore the open switch. *)
Theorem either_switch_edge_does_the_same
  (self : Door) (p channel : Z) (w : World)
  (Hclass : class_of self = TwoSwitchGarageDoorClass p) :
  deliver self (state_pin self, GarageDoor__stateChanged_cb) w =
    deliver self (p, TwoSwitchGarageDoor__stateChanged_cb) w /\
  TwoSwitchGarageDoor__stateChanged self p (state_pin self) w =
    GarageDoor__stateChanged self (state_pin self) w /\
  (channel <> state_pin self ->
   GarageDoor__stateChanged self channel w = (self, w)) /\
  (p <> state_pin self -> GarageDoor__stateChanged self p w = (self, w)) /\
  (channel <> state_pin self -> channel <> p ->
   TwoSwitchGarageDoor__stateChanged self p channel w = (self, w)).
Proof.
  unfold deliver. cbn [fst snd]. rewrite Hclass.
  unfold GarageDoor__stateChanged, TwoSwitchGarageDoor__stateChanged.
  rewrite !Z.eqb_refl, orb_true_r. cbn [orb].
  refine (conj eq_refl (conj eq_refl (conj _ (conj _ _)))).
  - intros H. apply Z.eqb_neq in H. rewrite H. reflexivity.
  - intros H. apply Z.eqb_neq in H. rewrite H. reflexivity.
  - intros H1 H2. apply Z.eqb_neq in H1, H2. rewrite H1, H2. reflexivity.
Qed.

Lemma either_switch_edge_does_the_same_witness :
  GarageDoor__stateChanged
    (sample_door (TwoSwitchGarageDoorClass 27) None false true None [0%nat])
    27 (world0 [17])
  = (sample_door (TwoSwitchGarageDoorClass 27) None false true None [0%nat],
     world0 [17]).
Proof.
  destruct (either_switch_edge_does_the_same
              (sample_door (TwoSwitchGarageDoorClass 27) None false true None
                 [0%nat])
              27 27 (world0 [17]) eq_refl) as (_ & _ & _ & H & _).
  apply H. discriminate.
Defined.

(** X13.  A motion sensor is built with one edge detection on its state
    channel, no stored state and no subscriber.  An edge on that channel
    sleeps [SHORT_WAIT], reads the channel once and then calls every
    subscriber once, in order, with ['nothing'] when the reading equals
    the mode and ['detection'] otherwise; no level changes.  An edge on any
    other channel is ignored. *)
Theorem motion_sensor_edge_notifies
  (sensor : MotionSensor) (config : Config) (channel : Z) (w : World) :
  let pin := ms_state_pin sensor in
  let v := if Z.b2z (levels w pin) =? ms_mode sensor
           then "nothing" else "detection" in
  let after := snd (MotionSensor__stateChanged sensor pin w) in
  let built := MotionSensor__init__ config w in
  trace after =
    trace w ++
    Sleep SHORT_WAIT :: Input pin (Z.b2z (levels w pin)) ::
    map (fun h => HandlerCall h (Some v)) (ms_onStateChange sensor) /\
  calls (trace after) =
    calls (trace w) ++ notified (ms_onStateChange sensor) (Some v) /\
  levels after = levels w /\
  (channel <> pin -> MotionSensor__stateChanged sensor channel w = (tt, w)) /\
  fst built =
    mkMotionSensor (cfg_state config) (cfg_id config)
      (mode_of_config (cfg_state_mode config)) None [] /\
  detections (trace (snd built)) =
    detections (trace w) ++ [(cfg_state config, MotionSensor__stateChanged_cb)] /\
  levels (snd built) = levels w.
Proof.
  cbv zeta.
  assert (E : MotionSensor__stateChanged sensor (ms_state_pin sensor) w =
              (tt, mkWorld (levels w)
                     (trace w ++
                      Sleep SHORT_WAIT ::
                      Input (ms_state_pin sensor)
                        (Z.b2z (levels w (ms_state_pin sensor))) ::
                      map (fun h =>
                             HandlerCall h
                               (Some (if Z.b2z (levels w (ms_state_pin sensor))
                                         =? ms_mode sensor
                                      then "nothing" else "detection")))
                          (ms_onStateChange sensor)))).
  { unfold MotionSensor__stateChanged. rewrite Z.eqb_refl.
    unfold bind, time_sleep, emit. rewrite MotionSensor_state_eq.
    cbn [levels trace]. rewrite fire_eq. cbn [levels trace].
    rewrite <- !app_assoc. reflexivity. }
  rewrite E. cbn [fst snd levels trace].
  refine (conj eq_refl (conj _ (conj eq_refl (conj _ (conj eq_refl
            (conj _ eq_refl)))))).
  - rewrite calls_app. simpl. rewrite calls_handler_calls. reflexivity.
  - intros H. apply Z.eqb_neq in H. unfold MotionSensor__stateChanged.
    rewrite H. reflexivity.
  - unfold MotionSensor__init__, bind, ret, GPIO.setwarnings,
      GPIO.setmode_BCM, GPIO.setup, GPIO.add_event_detect, emit.
    cbn [fst snd levels trace ms_state_pin].
    rewrite !detections_app. simpl. rewrite !app_nil_r. reflexivity.
Qed.

Lemma motion_sensor_edge_notifies_witness :
  MotionSensor__stateChanged (mkMotionSensor 17 "hall" 0 None [0%nat]) 18
    (world0 [17])
  = (tt, world0 [17]).
Proof.
  destruct (motion_sensor_edge_notifies
              (mkMotionSensor 17 "hall" 0 None [0%nat])
              (sample_config None None false) 18 (world0 [17]))
    as (_ & _ & _ & H & _).
  apply H. discriminate.
Defined.

(** ** Sanitising the identifier *)

Lemma sub_nonword_runs_empty (is_word : N -> bool) (s : Main.pystr) :
  forall in_run : bool,
    Main.sub_nonword_runs is_word [] in_run s = filter is_word s.
Proof.
  induction s as [|c s IH]; intros in_run; [reflexivity|].
  cbn [Main.sub_nonword_runs filter].
  destruct (is_word c).
  - rewrite IH. reflexivity.
  - destruct in_run; rewrite IH; reflexivity.
Qed.

Lemma filter_word_sub_space (is_space is_word : N -> bool)
      (s : Main.pystr) :
  (forall c, is_space c = true -> is_word c = false) ->
  is_word 32%N = false ->
  filter is_word (Main.sub_space is_space s) = filter is_word s.
Proof.
  intros Hsp Hblank. induction s as [|c s IH]; [reflexivity|].
  cbn [Main.sub_space filter].
  destruct (is_space c) eqn:E.
  - rewrite Hblank, (Hsp c E). exact IH.
  - rewrite IH. reflexivity.
Qed.

Lemma filter_all (is_word : N -> bool) (s : Main.pystr) :
  forallb is_word (filter is_word s) = true.
Proof.
  apply forallb_forall. intros c Hc. apply filter_In in Hc. apply Hc.
Qed.

Lemma filter_fixed (is_word : N -> bool) (s : Main.pystr) :
  forallb is_word s = true -> filter is_word s = s.
Proof.
  induction s as [|c s IH]; [reflexivity|].
  cbn [forallb filter]. intros H.
  apply andb_true_iff in H. destruct H as [Hc Hs].
  rewrite Hc, (IH Hs). reflexivity.
Qed.

Lemma sample_space_not_word (c : N) :
  sample_space c = true -> sample_word c = false.
Proof.
  unfold sample_space, sample_word. intros H.
  apply not_true_iff_false. intros Hw.
  repeat first [ rewrite orb_true_iff in H | rewrite andb_true_iff in H
               | rewrite N.leb_le in H | rewrite N.eqb_eq in H ].
  repeat first [ rewrite orb_true_iff in Hw | rewrite andb_true_iff in Hw
               | rewrite N.leb_le in Hw | rewrite N.eqb_eq in Hw ].
  lia.
Qed.

(** X14.  For any character classes on code points in which no whitespace
    character and not the space is a word character, the identifier the
    bootstrap loop computes is the identifier with every non-word
    character deleted, so the inner substitution of whitespace changes
    nothing.  It consists of word characters only, is never longer than
    the original, is left alone by a second pass, equals the original when
    that had word characters only, and is the same for two identifiers that
    differ by a non-word character, which therefore get the same discovery
    topics. *)
Theorem sanitized_id_keeps_exactly_the_word_characters
  (is_space is_word : N -> bool) (id : Main.pystr)
  (Hspace : forall c, is_space c = true -> is_word c = false)
  (Hblank : is_word 32%N = false) :
  let clean := Main.sanitize_id is_space is_word in
  clean id = filter is_word id /\
  clean id = Main.sub_nonword_runs is_word [] false id /\
  forallb is_word (clean id) = true /\
  (List.length (clean id) <= List.length id)%nat /\
  clean (clean id) = clean id /\
  (forallb is_word id = true -> clean id = id) /\
  (forall a c b,
      is_word c = false -> clean (a ++ c :: b) = clean (a ++ b)).
Proof.
  cbv zeta.
  assert (E : forall s, Main.sanitize_id is_space is_word s =
                        filter is_word s).
  { intros s. unfold Main.sanitize_id.
    rewrite sub_nonword_runs_empty.
    apply filter_word_sub_space; assumption. }
  rewrite !E.
  refine (conj eq_refl (conj _ (conj _ (conj _ (conj _ (conj _ _)))))).
  - symmetry. apply sub_nonword_runs_empty.
  - apply filter_all.
  - apply filter_length_le.
  - apply filter_fixed, filter_all.
  - apply filter_fixed.
  - intros a c b Hc. rewrite !E, !filter_app.
    cbn [filter]. rewrite Hc. reflexivity.
Qed.

(** The sample identifier is "caf", U+00E9, a space, "door". *)
Lemma sanitized_id_keeps_exactly_the_word_characters_witness :
  Main.sanitize_id sample_space sample_word
    [99; 97; 102; 233; 32; 100; 111; 111; 114]%N
  = [99; 97; 102; 233; 100; 111; 111; 114]%N /\
  Main.sanitize_id sample_space sample_word
    [99; 97; 102; 233; 32; 100; 111; 111; 114]%N
  = Main.sanitize_id sample_space sample_word
      [99; 97; 102; 233; 100; 111; 111; 114]%N.
Proof.
  destruct (sanitized_id_keeps_exactly_the_word_characters
              sample_space sample_word
              [99; 97; 102; 233; 32; 100; 111; 111; 114]%N
              sample_space_not_word eq_refl)
    as (Hword & _ & _ & _ & _ & _ & Hdrop).
  split.
  - rewrite Hword. reflexivity.
  - exact (Hdrop [99; 97; 102; 233]%N 32%N [100; 111; 111; 114]%N eq_refl).
Defined.
